(** * DevRev MCP server: request / retry / response-normalisation layer

    A shallow embedding of [devrev_mcp/errors.py], [devrev_mcp/auth.py] and
    [devrev_mcp/client.py].  Python values that travel through the code
    (parsed JSON bodies, request payloads, keyword arguments) are a small
    inductive type; dictionaries are finite maps with string keys; the
    side effects that matter (HTTP calls and [time.sleep]) are recorded in
    a chronological trace that is threaded through a state-and-exception
    monad.  Logging calls do not influence control flow and are left out. *)

From Stdlib Require Import ZArith Lia Ascii.
From stdpp Require Import gmap strings list fin_maps.

#[local] Open Scope string_scope.
#[local] Open Scope list_scope.
#[local] Set Warnings "-register-all".

(** ** Python values *)

Module Py.

(** JSON documents and the Python objects built from them.  [PFloat] keeps
    the literal; no operation of the modelled code inspects it. *)
Inductive pyval : Type :=
  | PNone
  | PBool (b : bool)
  | PInt (n : Z)
  | PFloat (lit : string)
  | PStr (s : string)
  | PList (l : list pyval)
  | PDict (d : gmap string pyval).

(** [needle in hay] for two strings: substring test. *)
Fixpoint str_contains (needle hay : string) : bool :=
  String.prefix needle hay ||
  match hay with
  | EmptyString => false
  | String _ hay' => str_contains needle hay'
  end.

(** [x == "s"] where the right operand is a string literal. *)
Definition is_str (s : string) (v : pyval) : bool :=
  match v with
  | PStr s' => String.eqb s s'
  | _ => false
  end.

(** [s.startswith(p)] *)
Definition startswith (s p : string) : bool := String.prefix p s.

(** Truth value of an [Optional[str]] argument: [None] and [""] are falsy. *)
Definition truthy_str (o : option string) : bool :=
  match o with
  | None => false
  | Some s => negb (String.eqb s "")
  end.

(** [d.get(key)] on a dictionary: the value, or [None]. *)
Definition dict_get (d : gmap string pyval) (key : string) : pyval :=
  default PNone (d !! key).

(** [kwargs.setdefault(key, value)]: keeps an existing entry. *)
Definition setdefault (key : string) (value : pyval)
    (d : gmap string pyval) : gmap string pyval :=
  match d !! key with
  | Some _ => d
  | None => <[key := value]> d
  end.

End Py.
Export Py.

(** ** The HTTP library and the effect monad *)

Module Http.

(** What the code reads of a [requests.Response]: the status, the body text
    and the result of [response.json()] ([None] when the body is not JSON
    and [json()] raises a decode error). *)
Record response : Type := Response {
  status_code : Z;
  text : string;
  json : option pyval
}.

(** Exceptions that occur in the modelled code.  [RequestException] stands
    for the whole [requests.exceptions.RequestException] hierarchy; its
    [response] attribute is [None] for pure network failures. *)
Inductive exn : Type :=
  | RequestException (resp : option response)
  | DevRevAPIError (message : pyval) (status : Z) (response_body : string)
  | ValueError (msg : string)
  | TypeError
  | AttributeError
  | KeyError (key : string)
  | Exception (msg : string).

(** Observable effects, in the order in which they happen. *)
Inductive event : Type :=
  | EvHttp (method url : string) (kwargs : gmap string pyval)
  | EvSleep (seconds : Z).

Definition trace : Type := list event.

Definition is_http (ev : event) : bool :=
  match ev with EvHttp _ _ _ => true | EvSleep _ => false end.

(** Number of HTTP calls made so far. *)
Definition http_calls (tr : trace) : nat :=
  length (List.filter is_http tr).

(** Durations of the sleeps performed so far. *)
Definition sleeps (tr : trace) : list Z :=
  omap (fun ev => match ev with EvSleep n => Some n | _ => None end) tr.

(** What the remote side does with one call: it answers, or the call
    fails inside the library (connection error, timeout, ...). *)
Inductive http_outcome : Type :=
  | Answer (r : response)
  | Failure (resp : option response).

(** The network: its reaction to the [i]-th call of a run. *)
Definition network : Type :=
  nat -> string -> string -> gmap string pyval -> http_outcome.

Inductive outcome (A : Type) : Type :=
  | Return (a : A)
  | Raise (e : exn).
Arguments Return {A} a.
Arguments Raise {A} e.

(** Computations: given the trace so far, an outcome and the extended
    trace; [None] only when a loop runs out of fuel. *)
Definition M (A : Type) : Type := trace -> option (outcome A * trace).

#[export] Instance M_ret : MRet M := fun A a tr => Some (Return a, tr).

#[export] Instance M_bind : MBind M := fun A B k m tr =>
  match m tr with
  | Some (Return a, tr') => k a tr'
  | Some (Raise e, tr') => Some (Raise e, tr')
  | None => None
  end.

Definition raise {A : Type} (e : exn) : M A := fun tr => Some (Raise e, tr).

Definition out_of_fuel {A : Type} : M A := fun _ => None.

(** [try: m  except requests.exceptions.RequestException as e: ...]: the
    handler's argument is delivered as [inl e.response]; every other
    exception propagates. *)
Definition try_request {A : Type} (m : M A) : M (option response + A) :=
  fun tr =>
    match m tr with
    | Some (Return a, tr') => Some (Return (inr a), tr')
    | Some (Raise (RequestException resp), tr') => Some (Return (inl resp), tr')
    | Some (Raise e, tr') => Some (Raise e, tr')
    | None => None
    end.

(** [time.sleep(seconds)] *)
Definition sleep (seconds : Z) : M unit :=
  fun tr => Some (Return tt, tr ++ [EvSleep seconds]).

Section Network.
Variable net : network.

(** [requests.get(url, **kwargs)] / [requests.post(url, **kwargs)] *)
Definition request (method url : string) (kwargs : gmap string pyval)
    : M response :=
  fun tr =>
    let tr' := tr ++ [EvHttp method url kwargs] in
    match net (http_calls tr) method url kwargs with
    | Answer r => Some (Return r, tr')
    | Failure resp => Some (Raise (RequestException resp), tr')
    end.
End Network.

(** [response.raise_for_status()]: an HTTPError carrying the response for
    every 4xx and 5xx status. *)
Definition raise_for_status (r : response) : M unit :=
  if ((400 <=? status_code r) && (status_code r <? 600))%Z
  then raise (RequestException (Some r))
  else mret tt.

(** [response.json()]: the decode error of [requests] is itself a
    [RequestException], created without a response. *)
Definition response_json (r : response) : M pyval :=
  match json r with
  | Some v => mret v
  | None => raise (RequestException None)
  end.

(** [data.get(key, dflt)]: only dictionaries have the method. *)
Definition py_get (data : pyval) (key : string) (dflt : pyval) : M pyval :=
  match data with
  | PDict d => mret (default dflt (d !! key))
  | _ => raise AttributeError
  end.

End Http.
Export Http.

(** ** errors.py *)

Module Errors.

Definition default_message : string :=
  "An error occurred while communicating with the DevRev API".
Definition message_401 : string :=
  "Authentication failed. Please check your API key.".
Definition message_403 : string :=
  "You don't have permission to access this resource.".
Definition message_404 : string :=
  "The requested resource was not found.".
Definition message_429 : string :=
  "Rate limit exceeded. Please try again later.".
Definition network_message : string :=
  "Could not connect to DevRev API. Please check your internet connection.".

(** [key in error_data]: key lookup on a dictionary, element comparison on
    a list, substring test on a string, [TypeError] on anything else. *)
Definition py_in (key : string) (data : pyval) : exn + bool :=
  match data with
  | PDict d => inr (bool_decide (is_Some (d !! key)))
  | PList l => inr (existsb (is_str key) l)
  | PStr s => inr (str_contains key s)
  | _ => inl TypeError
  end.

(** [error_data[key]] with a string index. *)
Definition py_getitem (data : pyval) (key : string) : exn + pyval :=
  match data with
  | PDict d =>
      match d !! key with
      | Some v => inr v
      | None => inl (KeyError key)
      end
  | _ => inl TypeError
  end.

(** The [try] block of [handle_api_error] once [response.json()] has
    returned [error_data]: the message, or the exception that escapes
    (none of these is caught by the [except] clause). *)
Definition message_of_json (error_data : pyval) : exn + pyval :=
  match py_in "message" error_data with
  | inl e => inl e
  | inr true => py_getitem error_data "message"
  | inr false =>
      match py_in "error" error_data with
      | inl e => inl e
      | inr true => py_getitem error_data "error"
      | inr false => inr (PStr default_message)
      end
  end.

(** The [except] block: a fixed message for well-known status codes. *)
Definition message_of_status (status : Z) : string :=
  if (status =? 401)%Z then message_401
  else if (status =? 403)%Z then message_403
  else if (status =? 404)%Z then message_404
  else if (status =? 429)%Z then message_429
  else default_message.

Definition handle_api_error (error : option response) : M (string * Z) :=
  match error with
  | Some resp =>
      let status := status_code resp in
      let response_body := text resp in
      match json resp with
      | Some error_data =>
          match message_of_json error_data with
          | inr message => raise (DevRevAPIError message status response_body)
          | inl e => raise e
          end
      | None =>
          raise (DevRevAPIError (PStr (message_of_status status))
                   status response_body)
      end
  | None => mret (network_message, 503%Z)
  end.

End Errors.
Export Errors.

(** ** config.py *)

Module Config.

(** [APIConfig]; [retries] is the number of retry attempts (default 3), a
    count, hence a natural number here. *)
Record APIConfig : Type := {
  base_url : string;
  timeout : Z;
  retries : nat
}.

Definition default_config : APIConfig :=
  {| base_url := "https://api.devrev.ai"; timeout := 30; retries := 3 |}.

End Config.
Export Config.

(** ** auth.py *)

Module Auth.

Definition DEV_USER_SELF_ENDPOINT : string := "/dev-users.self".

Section Validator.
Variable config : APIConfig.
Variable net : network.

(** The body of the [try] block of [validate_token]. *)
Definition validate_attempt (api_key : string) : M pyval :=
  let headers : gmap string pyval :=
    {[ "Authorization" := PStr api_key;
       "Content-Type" := PStr "application/json" ]} in
  response ← request net "GET" (base_url config +:+ DEV_USER_SELF_ENDPOINT)
               {[ "headers" := PDict headers;
                  "timeout" := PInt (timeout config) ]};
  raise_for_status response;;
  user_data ← response_json response;
  py_get user_data "dev_user" PNone.

(** [for attempt in range(max_retries + 1): ...]; leaving the loop
    normally ends the function, which then returns [None]. *)
Fixpoint validate_loop (api_key : string) (max_retries : nat)
    (attempts : list nat) : M pyval :=
  match attempts with
  | [] => mret PNone
  | attempt :: rest =>
      r ← try_request (validate_attempt api_key);
      match r with
      | inr user => mret user
      | inl _ =>
          if (attempt =? max_retries)%nat then mret PNone
          else
            let wait_time := (2 ^ Z.of_nat attempt)%Z in
            sleep wait_time;;
            validate_loop api_key max_retries rest
      end
  end.

Definition validate_token (api_key : string) : M pyval :=
  let max_retries := retries config in
  validate_loop api_key max_retries (seq 0 (max_retries + 1)).

End Validator.

End Auth.
Export Auth.

(** ** Built-in operations on Python values *)

Module Builtins.

Section Truth.
(** [bool(x)] of a float: the numeric value of a float literal is not
    part of the model, so its truth value is left to the caller. *)
Variable float_truthy : string -> bool.

(** [bool(v)], the test performed by [if v:]. *)
Definition truthy (v : pyval) : bool :=
  match v with
  | PNone => false
  | PBool b => b
  | PInt n => negb (n =? 0)%Z
  | PFloat lit => float_truthy lit
  | PStr s => negb (String.eqb s "")
  | PList l => match l with [] => false | _ :: _ => true end
  | PDict d => negb (bool_decide (d = ∅))
  end.
End Truth.

(** [len(v)]: only strings, lists and dictionaries have a length. *)
Definition py_len (v : pyval) : M nat :=
  match v with
  | PStr s => mret (String.length s)
  | PList l => mret (length l)
  | PDict d => mret (size d)
  | _ => raise TypeError
  end.

(** An [Optional[str]] argument as a Python value. *)
Definition of_optional (o : option string) : pyval :=
  match o with
  | Some s => PStr s
  | None => PNone
  end.

End Builtins.
Export Builtins.

(** ** client.py *)

Module Client.

Definition SEARCH_ENDPOINT : string := "/search.core".
Definition WORKS_ENDPOINT : string := "/works.get".
Definition WORKS_LIST_ENDPOINT : string := "/works.list".
Definition WORKS_CREATE_ENDPOINT : string := "/works.create".
Definition WORKS_UPDATE_ENDPOINT : string := "/works.update".
Definition PARTS_ENDPOINT : string := "/parts.get".
Definition PARTS_LIST_ENDPOINT : string := "/parts.list".
Definition DEV_USERS_ENDPOINT : string := "/dev-users.get".

(** The attributes of a [DevRevClient] instance. *)
Record DevRevClient : Type := {
  api_key : string;
  headers : gmap string pyval;
  client_timeout : Z;
  max_retries : nat;
  _current_user : option (gmap string pyval)
}.

(** [DevRevClient.__init__] *)
Definition new_client (config : APIConfig) (key : string)
    (current_user : option (gmap string pyval)) : DevRevClient :=
  {| api_key := key;
     headers := {[ "Authorization" := PStr key;
                   "Content-Type" := PStr "application/json" ]};
     client_timeout := timeout config;
     max_retries := retries config;
     _current_user := current_user |}.

Definition valid_namespaces : list string :=
  [ "account"; "article"; "capability"; "component"; "conversation";
    "custom_object"; "custom_part"; "custom_work"; "dashboard"; "dev_user";
    "enhancement"; "feature"; "group"; "issue"; "linkable"; "microservice";
    "object_member"; "operation"; "opportunity"; "part"; "product"; "project";
    "question_answer"; "rev_org"; "rev_user"; "runnable"; "service_account";
    "sys_user"; "tag"; "task"; "ticket"; "vista"; "workflow"; "comment" ].

Definition namespace_map : gmap string string :=
  list_to_map
    [ ("account", "account");
      ("article", "artifact");
      ("capability", "capability");
      ("component", "component");
      ("conversation", "conversation");
      ("comment", "comment");
      ("custom_object", "custom_object");
      ("custom_part", "custom_part");
      ("custom_work", "custom_work");
      ("dashboard", "dashboard");
      ("dev_user", "dev_user");
      ("enhancement", "enhancement");
      ("feature", "feature");
      ("group", "group");
      ("issue", "issue");
      ("linkable", "linkable");
      ("microservice", "microservice");
      ("object_member", "object_member");
      ("operation", "operation");
      ("opportunity", "opportunity");
      ("part", "part");
      ("product", "product");
      ("project", "project");
      ("question_answer", "question_answer");
      ("rev_org", "rev_org");
      ("rev_user", "rev_user");
      ("runnable", "runnable");
      ("service_account", "service_account");
      ("sys_user", "sys_user");
      ("tag", "tag");
      ("task", "task");
      ("ticket", "ticket");
      ("vista", "vista");
      ("workflow", "workflow") ].

(** [_determine_object_type] *)
Definition _determine_object_type (object_id : string) : string :=
  if startswith object_id "ISS-" then "issue"
  else if startswith object_id "TKT-" then "ticket"
  else if startswith object_id "ART-" then "article"
  else if String.eqb object_id "SELF" || startswith object_id "DEVU-"
  then "user"
  else "unknown".

(** The endpoint-specific unwrapping at the end of the [try] block of
    [_make_request]. *)
Definition unwrap (endpoint : string) (data : pyval) : M pyval :=
  if String.eqb endpoint SEARCH_ENDPOINT then py_get data "results" (PList [])
  else if String.eqb endpoint WORKS_LIST_ENDPOINT
  then py_get data "works" (PList [])
  else if String.eqb endpoint WORKS_CREATE_ENDPOINT
  then py_get data "work" (PDict ∅)
  else if String.eqb endpoint WORKS_UPDATE_ENDPOINT
  then py_get data "work" (PDict ∅)
  else if String.eqb endpoint PARTS_ENDPOINT then py_get data "part" (PDict ∅)
  else if String.eqb endpoint PARTS_LIST_ENDPOINT
  then py_get data "parts" (PList [])
  else mret data.

Section Requests.
Variable API_BASE_URL : string.
Variable net : network.
Variable self : DevRevClient.

(** The [try] block of [_make_request]. *)
Definition attempt_request (method url endpoint : string)
    (kwargs : gmap string pyval) : M pyval :=
  response ←
    (if String.eqb method "GET" then request net "GET" url kwargs
     else if String.eqb method "POST" then request net "POST" url kwargs
     else raise (ValueError ("Unsupported HTTP method: " +:+ method)));
  raise_for_status response;;
  data ← response_json response;
  unwrap endpoint data.

(** [while retries <= self.max_retries: ...]; [fuel] bounds the number
    of times the loop condition is evaluated. *)
Fixpoint retry_loop (fuel : nat) (method url endpoint : string)
    (kwargs : gmap string pyval) (retries : nat) : M pyval :=
  match fuel with
  | 0 => out_of_fuel
  | S fuel' =>
      if (retries <=? max_retries self)%nat then
        r ← try_request (attempt_request method url endpoint kwargs);
        match r with
        | inr data => mret data
        | inl e =>
            (if (max_retries self <=? retries)%nat
             then handle_api_error e;; mret tt
             else mret tt);;
            let retries := retries + 1 in
            let wait_time := (2 ^ Z.of_nat retries)%Z in
            sleep wait_time;;
            retry_loop fuel' method url endpoint kwargs retries
        end
      else raise (Exception "Maximum retries exceeded")
  end.

(** [_make_request]: the condition is evaluated for [retries] from 0 to
    at most [max_retries + 1]. *)
Definition _make_request (method endpoint : string)
    (kwargs : gmap string pyval) : M pyval :=
  let url := API_BASE_URL +:+ endpoint in
  let kwargs := setdefault "timeout" (PInt (client_timeout self)) kwargs in
  let kwargs := setdefault "headers" (PDict (headers self)) kwargs in
  retry_loop (max_retries self + 2) method url endpoint kwargs 0.

(** [search]: the namespace check and the [params] dictionary. *)
Definition search_params (query namespace : string) : gmap string pyval :=
  let namespace :=
    if negb (bool_decide (namespace ∈ valid_namespaces))
    then "issue" else namespace in
  {[ "query" := PStr query;
     "namespaces" := PStr (default "issue" (namespace_map !! namespace));
     "limit" := PInt 10 ]}.

Definition search (query namespace : string) : M pyval :=
  let endpoint := SEARCH_ENDPOINT in
  let params := search_params query namespace in
  _make_request "GET" endpoint {[ "params" := PDict params ]}.

(** [payload[key] = value] guarded by [if value:]. *)
Definition set_if_truthy (key : string) (value : option string)
    (payload : gmap string pyval) : gmap string pyval :=
  match value with
  | Some v => if String.eqb v "" then payload else <[key := PStr v]> payload
  | None => payload
  end.

(** [[self._current_user.get("id")] if self._current_user else []] *)
Definition default_owner : list pyval :=
  match _current_user self with
  | Some user => if bool_decide (user = ∅) then [] else [dict_get user "id"]
  | None => []
  end.

(** [create_work]: the payload built after the two checks. *)
Definition create_payload (work_type title : string)
    (applies_to_part body : option string) : gmap string pyval :=
  let owned_by := default_owner in
  let payload : gmap string pyval :=
    {[ "type" := PStr work_type;
       "title" := PStr title;
       "owned_by" := PList owned_by ]} in
  let payload := set_if_truthy "applies_to_part" applies_to_part payload in
  let payload := set_if_truthy "body" body payload in
  payload.

Definition create_work (work_type title : string)
    (applies_to_part body : option string) : M pyval :=
  if negb (bool_decide (work_type ∈ ["issue"; "task"]))
  then raise (ValueError ("Unsupported work type: " +:+ work_type +:+
                          ". Must be 'issue' or 'task'"))
  else if String.eqb work_type "issue" && negb (truthy_str applies_to_part)
  then raise (ValueError "applies_to_part is required for issues")
  else
    let payload := create_payload work_type title applies_to_part body in
    _make_request "POST" WORKS_CREATE_ENDPOINT {[ "json" := PDict payload ]}.

(** [get_object] *)
Definition get_object (object_id : string) : M pyval :=
  let object_type := _determine_object_type object_id in
  let fetch (endpoint : string) :=
    _make_request "GET" (endpoint +:+ "?id=" +:+ object_id) ∅ in
  if String.eqb object_type "issue" then fetch WORKS_ENDPOINT
  else if String.eqb object_type "ticket" then fetch WORKS_ENDPOINT
  else if String.eqb object_type "article" then fetch WORKS_ENDPOINT
  else if String.eqb object_type "user" then fetch DEV_USERS_ENDPOINT
  else raise (ValueError ("Unsupported object ID format: " +:+ object_id)).

(** [payload[key] = value] guarded by [if value is not None:]. *)
Definition set_if_given (key : string) (value : option string)
    (payload : gmap string pyval) : gmap string pyval :=
  match value with
  | Some v => <[key := PStr v]> payload
  | None => payload
  end.

(** [update_work]: the payload holds the id and the supplied fields. *)
Definition update_payload (work_id : string)
    (title applies_to_part body stage status : option string)
    : gmap string pyval :=
  let payload : gmap string pyval := {[ "id" := PStr work_id ]} in
  let payload := set_if_given "title" title payload in
  let payload := set_if_given "applies_to_part" applies_to_part payload in
  let payload := set_if_given "body" body payload in
  let payload := set_if_given "stage" stage payload in
  let payload := set_if_given "status" status payload in
  payload.

Definition update_work (work_id : string)
    (title applies_to_part body stage status : option string) : M pyval :=
  let payload :=
    update_payload work_id title applies_to_part body stage status in
  _make_request "POST" WORKS_UPDATE_ENDPOINT {[ "json" := PDict payload ]}.

End Requests.

Section Listing.
Variable API_BASE_URL : string.
Variable net : network.
Variable self : DevRevClient.
Variable float_truthy : string -> bool.
(** [str.lower] *)
Variable lower : string -> string.

(** [list_works]: the owner filter; ["self"] stands for the id of the
    cached identity, read with [self._current_user.get("id")]. *)
Definition resolve_owner (owned_by : option string) : M pyval :=
  if bool_decide (owned_by = Some "self") then
    match _current_user self with
    | Some user => mret (dict_get user "id")
    | None => raise AttributeError
    end
  else mret (of_optional owned_by).

(** [params[key] = value] guarded by [if value:], for any value. *)
Definition set_if (key : string) (value : pyval)
    (params : gmap string pyval) : gmap string pyval :=
  if truthy float_truthy value then <[key := value]> params else params.

(** [list_works]: the query parameters, filters left unset omitted. *)
Definition list_works_params (work_type : option string)
    (actual_owned_by : pyval) (limit : Z)
    (applies_to_part cursor : option string) : gmap string pyval :=
  let params : gmap string pyval := ∅ in
  let params := set_if "type" (of_optional work_type) params in
  let params := set_if "owned_by" actual_owned_by params in
  let params := set_if "limit" (PInt limit) params in
  let params := set_if "applies_to_part" (of_optional applies_to_part) params in
  let params := set_if "cursor" (of_optional cursor) params in
  params.

Definition list_works (work_type owned_by : option string) (limit : Z)
    (applies_to_part cursor : option string) : M pyval :=
  actual_owned_by ← resolve_owner owned_by;
  let endpoint := WORKS_LIST_ENDPOINT in
  let params :=
    list_works_params work_type actual_owned_by limit applies_to_part cursor in
  _make_request API_BASE_URL net self "GET" endpoint
    {[ "params" := PDict params ]}.

(** [get_part] *)
Definition get_part (part_id : string) : M pyval :=
  let params : gmap string pyval := {[ "id" := PStr part_id ]} in
  _make_request API_BASE_URL net self "GET" PARTS_ENDPOINT
    {[ "params" := PDict params ]}.

Definition valid_types : list string :=
  [ "capability"; "enhancement"; "feature"; "linkable"; "runnable";
    "product" ].

(** [list_parts]: the query parameters; the part type is sent as given. *)
Definition list_parts_params (part_type : string)
    (cursor parent_part : option string) : gmap string pyval :=
  let params : gmap string pyval := {[ "type" := PStr part_type ]} in
  let params := set_if_truthy "cursor" cursor params in
  let params := set_if_truthy "parent_part.parts" parent_part params in
  params.

(** [list_parts]: an unknown part type only selects the branch that logs
    a warning; both branches go on to the request. *)
Definition list_parts (part_type : string)
    (cursor parent_part : option string) : M pyval :=
  (if negb (bool_decide (lower part_type ∈ valid_types))
   then mret tt
   else mret tt);;
  let params := list_parts_params part_type cursor parent_part in
  _make_request API_BASE_URL net self "GET" PARTS_LIST_ENDPOINT
    {[ "params" := PDict params ]}.

End Listing.

End Client.
Export Client.

(** ** __main__.py *)

Module Main.

(** How [on_connect] ends when it does not raise: [sys.exit(code)], or the
    global [client] set to a new instance. *)
Inductive startup : Type :=
  | SysExit (code : Z)
  | Connected (client : DevRevClient).

Section Server.
Variable config : APIConfig.
Variable net : network.
Variable float_truthy : string -> bool.
Variable lower : string -> string.
(** [str(e)] for an exception; the text formatting of [DevRevAPIError] and
    of the built-in exceptions is not part of the model. *)
Variable str_exn : exn -> string.

(** [on_connect]; [api_key] is [config.api_key]. *)
Definition on_connect (api_key : option string) : M startup :=
  if negb (truthy_str api_key) then mret (SysExit 1)
  else
    let key := default "" api_key in
    user_info ← validate_token config net key;
    if negb (truthy float_truthy user_info) then mret (SysExit 1)
    else
      py_get user_info "display_name" (PStr "Unknown User");;
      match user_info with
      | PDict d => mret (Connected (new_client config key (Some d)))
      | _ => raise AttributeError
      end.

(** The global [client], [None] until [on_connect] has run. *)
Variable client : option DevRevClient.

(** [if client is None: raise ValueError(...)] at the head of every tool. *)
Definition with_client {A : Type} (body : DevRevClient -> M A) : M A :=
  match client with
  | None => raise (ValueError "DevRev client not initialized")
  | Some c => body c
  end.

(** The two [except] clauses shared by every tool: a [DevRevAPIError] and
    any other exception are both replaced by a [ValueError] that keeps
    only a text. *)
Definition reraise {A : Type} (context : string) (m : M A) : M A :=
  fun tr =>
    match m tr with
    | Some (Raise e, tr') =>
        match e with
        | DevRevAPIError _ _ _ =>
            Some (Raise (ValueError ("DevRev API error: " +:+ str_exn e)), tr')
        | _ =>
            Some (Raise (ValueError (context +:+ ": " +:+ str_exn e)), tr')
        end
    | r => r
    end.

Definition search (query namespace : string) : M pyval :=
  with_client (fun c =>
    reraise "Error searching DevRev"
      (results ← Client.search (base_url config) net c query namespace;
       py_len results;;
       mret (PDict {[ "results" := results ]}))).

Definition list_works (work_type owned_by : option string) (limit : Z)
    (applies_to_part cursor : option string) : M pyval :=
  with_client (fun c =>
    reraise "Error listing works"
      (works ← Client.list_works (base_url config) net c float_truthy
                 work_type owned_by limit applies_to_part cursor;
       py_len works;;
       mret (PDict {[ "works" := works ]}))).

Definition get_object (id : string) : M pyval :=
  with_client (fun c =>
    reraise "Error getting DevRev object"
      (object_details ← Client.get_object (base_url config) net c id;
       mret object_details)).

Definition create_work (work_type title : string)
    (applies_to_part body : option string) : M pyval :=
  with_client (fun c =>
    reraise "Error creating work"
      (work ← Client.create_work (base_url config) net c work_type title
                applies_to_part body;
       py_get work "id" (PStr "unknown");;
       mret (PDict {[ "work" := work ]}))).

Definition get_part (id : string) : M pyval :=
  with_client (fun c =>
    reraise "Error getting part"
      (part_details ← Client.get_part (base_url config) net c id;
       mret (PDict {[ "part" := part_details ]}))).

Definition list_parts (part_type : string)
    (cursor parent_part : option string) : M pyval :=
  with_client (fun c =>
    reraise "Error listing parts"
      (parts ← Client.list_parts (base_url config) net c lower part_type
                 cursor parent_part;
       py_len parts;;
       mret (PDict {[ "parts" := parts ]}))).

Definition update_work (work_id : string)
    (title applies_to_part body stage status : option string) : M pyval :=
  with_client (fun c =>
    reraise "Error updating work"
      (work ← Client.update_work (base_url config) net c work_id title
                applies_to_part body stage status;
       mret (PDict {[ "work" := work ]}))).

End Server.

End Main.

(** * Vocabulary of the properties *)

(** One retry round: a request followed by a sleep. *)
Definition round (ev : event) (wait : nat -> Z) (i : nat) : trace :=
  [ev; EvSleep (wait i)].

(** The [response] attribute of the [RequestException] with which an
    attempt ends, if it does: the library raised, the status was 4xx/5xx,
    or the body of an accepted response was not JSON. *)
Definition failure_of (o : http_outcome) : option (option response) :=
  match o with
  | Failure resp => Some resp
  | Answer r =>
      if ((400 <=? status_code r) && (status_code r <? 600))%Z then Some (Some r)
      else match json r with
           | Some _ => None
           | None => Some None
           end
  end.

(** An accepted response with a JSON body. *)
Definition success_of (o : http_outcome) : option pyval :=
  match o with
  | Failure _ => None
  | Answer r =>
      if ((400 <=? status_code r) && (status_code r <? 600))%Z then None
      else json r
  end.

(** Backoff of the validator before the retry that follows [attempt]. *)
Definition validator_wait (attempt : nat) : Z := 2 ^ Z.of_nat attempt.

(** The network that drops every connection. *)
Definition unreachable : network := fun _ _ _ _ => Failure None.

(** A network that answers every call with status 200 and the body [{}]. *)
Definition empty_object : network :=
  fun _ _ _ _ => Answer (Response 200 "{}" (Some (PDict ∅))).

(** [s] between double quotes, as in a JSON document. *)
Definition quoted (s : string) : string :=
  String "034"%char (s +:+ String "034"%char EmptyString).

(** A network that answers every call with an identity record. *)
Definition whoami : network :=
  fun _ _ _ _ =>
    Answer (Response 200
              ("{" +:+ quoted "dev_user" +:+ ": {" +:+ quoted "id" +:+ ": "
                   +:+ quoted "DEVU-1" +:+ "}}")
              (Some (PDict {[ "dev_user" := PDict {[ "id" := PStr "DEVU-1" ]} ]}))).

(** An HTTP 500 whose body is the JSON document [null]. *)
Definition null_body : response := Response 500 "null" (Some PNone).

(** Backoff of the executor after the failure that makes the counter
    [retries] leave the value [attempts_so_far]. *)
Definition client_wait (attempts_so_far : nat) : Z :=
  2 ^ Z.of_nat (attempts_so_far + 1).

(** The envelope key of each endpoint that has one, with the value to be
    returned when the key is missing: an empty list for the search and
    list endpoints, an empty mapping for the single-object ones. *)
Definition envelope_defaults : list (string * (string * pyval)) :=
  [ ("/search.core", ("results", PList []));
    ("/works.list", ("works", PList []));
    ("/works.create", ("work", PDict ∅));
    ("/works.update", ("work", PDict ∅));
    ("/parts.get", ("part", PDict ∅));
    ("/parts.list", ("parts", PList [])) ].

(** The wire name the specification gives to a namespace: [artifact] for
    [article], the tag itself for every other known tag, [issue] for
    anything else. *)
Definition spec_wire_namespace (namespace : string) : string :=
  if bool_decide (namespace ∈ valid_namespaces) then
    if String.eqb namespace "article" then "artifact" else namespace
  else "issue".

(** A client built without a cached identity, as the constructor's default
    argument allows. *)
Definition anonymous : DevRevClient := new_client default_config "token" None.

(** A client holding the identity returned by the validator. *)
Definition signed_in : DevRevClient :=
  new_client default_config "token" (Some {[ "id" := PStr "DEVU-1" ]}).

(** [s] begins with the literal [p]. *)
Definition has_prefix (p s : string) : Prop := exists rest, s = p +:+ rest.

(** Seconds spent sleeping in a trace. *)
Definition total_sleep (tr : trace) : Z := foldr Z.add 0%Z (sleeps tr).

(** A network whose first [k] calls fail without a response and which
    answers [r] from then on. *)
Definition flaky (k : nat) (r : response) : network :=
  fun i _ _ _ => if (i <? k)%nat then Failure None else Answer r.

(** A page of two works, as the list endpoint returns it. *)
Definition works_page : response :=
  Response 200 "{works: [ISS-1, ISS-2]}"
    (Some (PDict {[ "works" := PList [PStr "ISS-1"; PStr "ISS-2"] ]})).

(** A successful response whose body is a JSON array. *)
Definition array_body : response := Response 200 "[]" (Some (PList [])).

(** A successful response whose [results] entry is [null]. *)
Definition null_results : response :=
  Response 200 "{results: null}" (Some (PDict {[ "results" := PNone ]})).

(** A network that answers every call with [r]. *)
Definition always (r : response) : network := fun _ _ _ _ => Answer r.

(** The keyword arguments with which [_make_request] calls the library. *)
Definition request_kwargs (self : DevRevClient) (kwargs : gmap string pyval)
    : gmap string pyval :=
  setdefault "headers" (PDict (headers self))
    (setdefault "timeout" (PInt (client_timeout self)) kwargs).


(** A computation that produces an outcome from every trace. *)
Definition produces_outcome {A : Type} (m : M A) : Prop :=
  forall tr, exists o tr', m tr = Some (o, tr').

(** A computation that, from every trace, produces an outcome, and whose
    outcome is a value or a [ValueError]. *)
Definition returns_or_value_error (m : M pyval) : Prop :=
  forall tr,
    exists o tr',
      m tr = Some (o, tr')
      /\ ((exists v, o = Return v) \/ (exists msg, o = Raise (ValueError msg))).

(** * Properties *)

(** ** Traces and single attempts *)

Lemma http_calls_app (tr1 tr2 : trace) :
  http_calls (tr1 ++ tr2) = http_calls tr1 + http_calls tr2.
Proof. unfold http_calls. now rewrite List.filter_app, length_app. Qed.

Lemma sleeps_app (tr1 tr2 : trace) : sleeps (tr1 ++ tr2) = sleeps tr1 ++ sleeps tr2.
Proof. unfold sleeps. apply omap_app. Qed.

Lemma http_calls_rounds method url kwargs wait (l : list nat) :
  http_calls (flat_map (round (EvHttp method url kwargs) wait) l) = length l.
Proof.
  induction l as [|i l IH]; [reflexivity|].
  cbn [flat_map]. rewrite http_calls_app, IH. reflexivity.
Qed.

Lemma sleeps_rounds method url kwargs wait (l : list nat) :
  sleeps (flat_map (round (EvHttp method url kwargs) wait) l) = map wait l.
Proof.
  induction l as [|i l IH]; [reflexivity|].
  cbn [flat_map]. rewrite sleeps_app, IH. reflexivity.
Qed.

Ltac run :=
  unfold mbind, M_bind, mret, M_ret, raise, sleep, request, try_request,
    raise_for_status, response_json in *.

Lemma validate_attempt_fails config net api_key tr e :
  let url := base_url config +:+ DEV_USER_SELF_ENDPOINT in
  let kwargs : gmap string pyval :=
    {[ "headers" := PDict {[ "Authorization" := PStr api_key;
                             "Content-Type" := PStr "application/json" ]};
       "timeout" := PInt (timeout config) ]} in
  failure_of (net (http_calls tr) "GET" url kwargs) = Some e ->
  try_request (validate_attempt config net api_key) tr
  = Some (Return (inl e), tr ++ [EvHttp "GET" url kwargs]).
Proof.
  intros url kwargs H. unfold validate_attempt. run.
  fold url kwargs. destruct (net _ _ _ _) as [r|resp]; cbn in H |- *.
  - destruct (_ && _); run; cbn; [by simplify_eq|].
    destruct (json r); run; cbn; by simplify_eq.
  - by simplify_eq.
Qed.

Lemma validate_attempt_succeeds config net api_key tr d :
  let url := base_url config +:+ DEV_USER_SELF_ENDPOINT in
  let kwargs : gmap string pyval :=
    {[ "headers" := PDict {[ "Authorization" := PStr api_key;
                             "Content-Type" := PStr "application/json" ]};
       "timeout" := PInt (timeout config) ]} in
  success_of (net (http_calls tr) "GET" url kwargs) = Some (PDict d) ->
  try_request (validate_attempt config net api_key) tr
  = Some (Return (inr (dict_get d "dev_user")), tr ++ [EvHttp "GET" url kwargs]).
Proof.
  intros url kwargs H. unfold validate_attempt. run.
  fold url kwargs. destruct (net _ _ _ _) as [r|resp]; cbn in H |- *.
  - destruct (_ && _); run; cbn; [discriminate|].
    destruct (json r); run; cbn; by simplify_eq.
  - discriminate.
Qed.

(** ** The auth validator *)

Section ValidatorFacts.
Variable config : APIConfig.
Variable net : network.
Variable api_key : string.

Let url : string := base_url config +:+ DEV_USER_SELF_ENDPOINT.
Let kwargs : gmap string pyval :=
  {[ "headers" := PDict {[ "Authorization" := PStr api_key;
                           "Content-Type" := PStr "application/json" ]};
     "timeout" := PInt (timeout config) ]}.
Let ev : event := EvHttp "GET" url kwargs.

Lemma validate_loop_all_fail (max_retries k : nat) :
  forall start tr,
    start + k = max_retries ->
    (forall j, j <= k ->
       failure_of (net (http_calls tr + j) "GET" url kwargs) <> None) ->
    validate_loop config net api_key max_retries (seq start (k + 1)) tr
    = Some (Return PNone,
            tr ++ flat_map (round ev validator_wait) (seq start k) ++ [ev]).
Proof.
  induction k as [|k IH]; intros start tr Hk Hnet.
  - cbn [Nat.add seq validate_loop]. unfold mbind, M_bind at 1.
    destruct (failure_of (net (http_calls tr) "GET" url kwargs)) as [e|] eqn:He.
    2:{ specialize (Hnet 0 (Nat.le_refl 0)).
        rewrite Nat.add_0_r in Hnet. contradiction. }
    rewrite (validate_attempt_fails config net api_key tr e He).
    replace (start =? max_retries)%nat with true
      by (symmetry; apply Nat.eqb_eq; lia).
    reflexivity.
  - cbn [Nat.add seq validate_loop]. unfold mbind, M_bind at 1.
    destruct (failure_of (net (http_calls tr) "GET" url kwargs)) as [e|] eqn:He.
    2:{ specialize (Hnet 0 (Nat.le_0_l _)).
        rewrite Nat.add_0_r in Hnet. contradiction. }
    rewrite (validate_attempt_fails config net api_key tr e He).
    replace (start =? max_retries)%nat with false
      by (symmetry; apply Nat.eqb_neq; lia).
    unfold mbind, M_bind at 1. unfold sleep at 1.
    change (k + 1) with (Nat.add k 1) in IH.
    rewrite IH.
    + cbn [flat_map round]. fold url kwargs ev.
      now rewrite <- !app_assoc.
    + lia.
    + intros j Hj. rewrite !http_calls_app. cbn [http_calls List.filter is_http length].
      replace (http_calls tr + 1 + 0 + j) with (http_calls tr + S j) by lia.
      apply Hnet. lia.
Qed.

Lemma validate_token_first_success (tr : trace) (d : gmap string pyval) :
  success_of (net (http_calls tr) "GET" url kwargs) = Some (PDict d) ->
  validate_token config net api_key tr
  = Some (Return (dict_get d "dev_user"), tr ++ [ev]).
Proof.
  intros H. unfold validate_token.
  rewrite Nat.add_1_r. cbn [seq validate_loop]. unfold mbind, M_bind at 1.
  now rewrite (validate_attempt_succeeds config net api_key tr d H).
Qed.

End ValidatorFacts.

(** C4: when every attempt of the auth validator ends in a transport-level
    error, it makes [retries + 1] requests, sleeps [2 ^ attempt] seconds
    (1, 2, 4, ...) after each failed attempt but the last, performs nothing
    else, and returns [None] instead of raising. *)
Theorem validate_token_exhausted
    (config : APIConfig) (net : network) (api_key : string) (tr : trace) :
  let url := base_url config +:+ DEV_USER_SELF_ENDPOINT in
  let kwargs : gmap string pyval :=
    {[ "headers" := PDict {[ "Authorization" := PStr api_key;
                             "Content-Type" := PStr "application/json" ]};
       "timeout" := PInt (timeout config) ]} in
  let ev := EvHttp "GET" url kwargs in
  (forall j, j <= retries config ->
     failure_of (net (http_calls tr + j) "GET" url kwargs) <> None) ->
  exists tr',
    validate_token config net api_key tr = Some (Return PNone, tr ++ tr')
    /\ tr' = flat_map (round ev (fun attempt => 2 ^ Z.of_nat attempt)%Z)
               (seq 0 (retries config)) ++ [ev]
    /\ http_calls tr' = retries config + 1
    /\ sleeps tr' = map (fun attempt => 2 ^ Z.of_nat attempt)%Z
                      (seq 0 (retries config)).
Proof.
  intros url kwargs ev Hnet. eexists. split; [|split; [reflexivity|split]].
  - unfold validate_token.
    apply (validate_loop_all_fail config net api_key (retries config)
             (retries config) 0 tr); [reflexivity|exact Hnet].
  - rewrite http_calls_app. unfold ev.
    rewrite http_calls_rounds, length_seq. reflexivity.
  - rewrite sleeps_app. unfold ev. rewrite sleeps_rounds.
    cbn. now rewrite app_nil_r.
Qed.

Lemma validate_token_exhausted_witness :
  exists tr',
    validate_token default_config unreachable "token" [] = Some (Return PNone, tr')
    /\ http_calls tr' = 4
    /\ sleeps tr' = [1; 2; 4]%Z.
Proof.
  destruct (validate_token_exhausted default_config unreachable "token" [])
    as (tr' & Hrun & _ & Hcalls & Hsleeps).
  - intros j _. discriminate.
  - exists tr'. split; [exact Hrun|]. split; [exact Hcalls|exact Hsleeps].
Defined.




(** ** The error classifier *)

(** The classifier never fails to terminate and never touches the trace. *)
Lemma handle_api_error_pure (error : option response) (tr : trace) :
  exists o, handle_api_error error tr = Some (o, tr).
Proof.
  unfold handle_api_error. run.
  destruct error as [resp|]; [|eauto].
  destruct (json resp) as [error_data|]; [|eauto].
  destruct (message_of_json error_data); eauto.
Qed.

(** With a response attached, the classifier raises. *)
Lemma handle_api_error_response_raises (resp : response) (tr : trace) :
  exists e, handle_api_error (Some resp) tr = Some (Raise e, tr).
Proof.
  unfold handle_api_error. run.
  destruct (json resp) as [error_data|]; [|eauto].
  destruct (message_of_json error_data); eauto.
Qed.

(** The message chosen for a body that is a JSON object. *)
Lemma message_of_json_object (d : gmap string pyval) :
  message_of_json (PDict d)
  = inr match d !! "message", d !! "error" with
        | Some message, _ => message
        | None, Some message => message
        | None, None => PStr default_message
        end.
Proof.
  unfold message_of_json, py_in, py_getitem.
  destruct (d !! "message") as [m|] eqn:Hm.
  - rewrite bool_decide_eq_true_2 by eauto. reflexivity.
  - rewrite bool_decide_eq_false_2 by (intros [? ?]; discriminate).
    destruct (d !! "error") as [m|] eqn:He.
    + rewrite bool_decide_eq_true_2 by eauto. reflexivity.
    + rewrite bool_decide_eq_false_2 by (intros [? ?]; discriminate).
      reflexivity.
Qed.

(** The part of C3 that the code satisfies: when the body of the attached
    response is a JSON object or is not JSON at all, a [DevRevAPIError] is
    raised with the response's status and text, and with the message taken
    from the [message] field, else the [error] field, else (body not JSON)
    the fixed text for 401, 403, 404, 429, else the default text. *)
Lemma handle_api_error_structured (resp : response) (tr : trace) :
  (json resp = None \/ exists d, json resp = Some (PDict d)) ->
  handle_api_error (Some resp) tr
  = Some (Raise (DevRevAPIError
                   match json resp with
                   | Some (PDict d) =>
                       match d !! "message", d !! "error" with
                       | Some message, _ => message
                       | None, Some message => message
                       | None, None => PStr default_message
                       end
                   | _ =>
                       PStr
                         (if (status_code resp =? 401)%Z then message_401
                          else if (status_code resp =? 403)%Z then message_403
                          else if (status_code resp =? 404)%Z then message_404
                          else if (status_code resp =? 429)%Z then message_429
                          else default_message)
                   end
                   (status_code resp) (text resp)),
          tr).
Proof.
  intros [H|[d H]]; unfold handle_api_error; rewrite H.
  - reflexivity.
  - rewrite message_of_json_object. reflexivity.
Qed.

(** C3, evaluated on error responses whose body is the JSON document
    [null], [true], [false] or a number (for instance status 500 with the
    body [null]): [TypeError] escapes from the classifier and no structured
    error carrying the status and the body is raised. *)
Theorem handle_api_error_scalar_body
    (status : Z) (body : string) (tr : trace) :
  handle_api_error (Some (Response status body (Some PNone))) tr
  = Some (Raise TypeError, tr)
  /\ (forall b,
        handle_api_error (Some (Response status body (Some (PBool b)))) tr
        = Some (Raise TypeError, tr))
  /\ (forall n,
        handle_api_error (Some (Response status body (Some (PInt n)))) tr
        = Some (Raise TypeError, tr))
  /\ (forall lit,
        handle_api_error (Some (Response status body (Some (PFloat lit)))) tr
        = Some (Raise TypeError, tr)).
Proof. repeat split. Qed.

(** The response [null_body]: status 500, body [null]. *)
Example handle_api_error_null_body :
  handle_api_error (Some null_body) [] = Some (Raise TypeError, []).
Proof. reflexivity. Qed.

(** Other JSON bodies that are not objects: a string or an array escapes
    as [TypeError] when it contains the key, and is classified with the
    default message when it does not. *)
Lemma handle_api_error_other_bodies (tr : trace) :
  handle_api_error
    (Some (Response 500 (quoted "error") (Some (PStr "error")))) tr
  = Some (Raise TypeError, tr)
  /\ handle_api_error
       (Some (Response 500 "[]" (Some (PList [PStr "message"])))) tr
     = Some (Raise TypeError, tr)
  /\ handle_api_error (Some (Response 500 "[]" (Some (PList [])))) tr
     = Some (Raise (DevRevAPIError (PStr default_message) 500 "[]"), tr).
Proof. repeat split; reflexivity. Qed.

(** ** The shared request executor *)

Section ExecutorFacts.
Variable API_BASE_URL : string.
Variable net : network.
Variable self : DevRevClient.
Variables method url endpoint : string.
Variable kwargs : gmap string pyval.
Hypothesis Hmethod : method = "GET" \/ method = "POST".

Let ev : event := EvHttp method url kwargs.

Lemma attempt_request_fails (tr : trace) (e : option response) :
  failure_of (net (http_calls tr) method url kwargs) = Some e ->
  try_request (attempt_request net method url endpoint kwargs) tr
  = Some (Return (inl e), tr ++ [ev]).
Proof.
  intros H. unfold attempt_request, ev. run.
  destruct Hmethod as [-> | ->]; cbn [String.eqb Ascii.eqb Bool.eqb];
    (destruct (net _ _ _ _) as [r|resp]; cbn in H |- *;
     [ destruct (_ && _); run; cbn; [by simplify_eq|];
       destruct (json r); run; cbn; by simplify_eq
     | by simplify_eq ]).
Qed.

Lemma attempt_request_succeeds (tr : trace) (data : pyval) :
  success_of (net (http_calls tr) method url kwargs) = Some data ->
  attempt_request net method url endpoint kwargs tr
  = unwrap endpoint data (tr ++ [ev]).
Proof.
  intros H. unfold attempt_request, ev. run.
  destruct Hmethod as [-> | ->]; cbn [String.eqb Ascii.eqb Bool.eqb];
    (destruct (net _ _ _ _) as [r|resp]; cbn in H |- *;
     [ destruct (_ && _); run; cbn; [discriminate|];
       destruct (json r); run; cbn; by simplify_eq
     | discriminate ]).
Qed.

(** An attempt always terminates, and its first effect is the request. *)
Lemma attempt_request_total (tr : trace) :
  exists o, attempt_request net method url endpoint kwargs tr
            = Some (o, tr ++ [ev]).
Proof.
  unfold attempt_request, ev. run.
  destruct Hmethod as [-> | ->]; cbn [String.eqb Ascii.eqb Bool.eqb];
    (destruct (net _ _ _ _) as [r|resp]; [|eauto];
     destruct (_ && _); run; cbn; [eauto|];
     destruct (json r) as [data|]; run; cbn; [|eauto];
     unfold unwrap, py_get; run;
     repeat case_match; eauto).
Qed.

Lemma http_calls_after_round (tr : trace) (seconds : Z) (j : nat) :
  http_calls ((tr ++ [ev]) ++ [EvSleep seconds]) + j = http_calls tr + S j.
Proof.
  rewrite !http_calls_app. cbn [http_calls List.filter is_http ev length]. lia.
Qed.

(** Every attempt fails and the failures carry no response: the loop
    sleeps after each attempt, the last one included, and leaves through
    its condition. *)
Lemma retry_loop_without_response :
  forall k retries fuel tr,
    retries + k = max_retries self + 1 ->
    k + 1 <= fuel ->
    (forall j, j < k ->
       failure_of (net (http_calls tr + j) method url kwargs) = Some None) ->
    retry_loop net self fuel method url endpoint kwargs retries tr
    = Some (Raise (Exception "Maximum retries exceeded"),
            tr ++ flat_map (round ev client_wait) (seq retries k)).
Proof.
  induction k as [|k IH]; intros retries fuel tr Hk Hfuel Hnet.
  - destruct fuel as [|fuel]; [lia|]. cbn [retry_loop].
    replace (retries <=? max_retries self)%nat with false
      by (symmetry; apply Nat.leb_gt; lia).
    cbn. now rewrite app_nil_r.
  - destruct fuel as [|fuel]; [lia|]. cbn [retry_loop].
    replace (retries <=? max_retries self)%nat with true
      by (symmetry; apply Nat.leb_le; lia).
    unfold mbind, M_bind at 1.
    pose proof (Hnet 0 (Nat.lt_0_succ k)) as H0. rewrite Nat.add_0_r in H0.
    rewrite (attempt_request_fails tr None H0).
    assert (Hrest : forall j, j < k ->
              failure_of
                (net (http_calls ((tr ++ [ev])
                                    ++ [EvSleep (2 ^ Z.of_nat (retries + 1))]) + j)
                   method url kwargs) = Some None).
    { intros j Hj. rewrite http_calls_after_round. apply Hnet. lia. }
    destruct (max_retries self <=? retries)%nat;
      cbv [mbind M_bind mret M_ret sleep handle_api_error];
      rewrite IH by (lia || exact Hrest);
      replace (seq (retries + 1) k) with (seq (S retries) k)
        by (f_equal; lia);
      cbn [seq flat_map]; rewrite <- !app_assoc; reflexivity.
Qed.

(** Every attempt fails and the failures carry a response: the loop
    sleeps between attempts only, and the classifier raises after the
    last one. *)
Lemma retry_loop_with_response :
  forall k retries fuel tr,
    retries + k = max_retries self ->
    k + 1 <= fuel ->
    (forall j, j <= k ->
       exists r, failure_of (net (http_calls tr + j) method url kwargs)
                 = Some (Some r)) ->
    exists e,
      retry_loop net self fuel method url endpoint kwargs retries tr
      = Some (Raise e,
              tr ++ flat_map (round ev client_wait) (seq retries k) ++ [ev]).
Proof.
  induction k as [|k IH]; intros retries fuel tr Hk Hfuel Hnet.
  - destruct fuel as [|fuel]; [lia|]. cbn [retry_loop].
    replace (retries <=? max_retries self)%nat with true
      by (symmetry; apply Nat.leb_le; lia).
    unfold mbind, M_bind at 1.
    destruct (Hnet 0 (Nat.le_refl 0)) as [r Hr]. rewrite Nat.add_0_r in Hr.
    rewrite (attempt_request_fails tr (Some r) Hr).
    replace (max_retries self <=? retries)%nat with true
      by (symmetry; apply Nat.leb_le; lia).
    destruct (handle_api_error_response_raises r (tr ++ [ev])) as [e He].
    exists e. cbv [mbind M_bind]. rewrite He. reflexivity.
  - destruct fuel as [|fuel]; [lia|]. cbn [retry_loop].
    replace (retries <=? max_retries self)%nat with true
      by (symmetry; apply Nat.leb_le; lia).
    unfold mbind, M_bind at 1.
    destruct (Hnet 0 (Nat.le_0_l _)) as [r Hr]. rewrite Nat.add_0_r in Hr.
    rewrite (attempt_request_fails tr (Some r) Hr).
    replace (max_retries self <=? retries)%nat with false
      by (symmetry; apply Nat.leb_gt; lia).
    cbv [mbind M_bind mret M_ret sleep].
    destruct (IH (retries + 1) fuel
                ((tr ++ [ev]) ++ [EvSleep (2 ^ Z.of_nat (retries + 1))]))
      as [e He]; [lia|lia| |].
    { intros j Hj. rewrite http_calls_after_round. apply Hnet. lia. }
    exists e. rewrite He.
    replace (seq (retries + 1) k) with (seq (S retries) k)
      by (f_equal; lia).
    cbn [seq flat_map]. rewrite <- !app_assoc. reflexivity.
Qed.

(** The fuel handed over by [_make_request] is never used up. *)
Lemma retry_loop_total :
  forall k retries fuel tr,
    retries + k = max_retries self + 1 ->
    k + 1 <= fuel ->
    exists o tr',
      retry_loop net self fuel method url endpoint kwargs retries tr
      = Some (o, tr ++ tr').
Proof.
  induction k as [|k IH]; intros retries fuel tr Hk Hfuel.
  - destruct fuel as [|fuel]; [lia|]. cbn [retry_loop].
    replace (retries <=? max_retries self)%nat with false
      by (symmetry; apply Nat.leb_gt; lia).
    eexists _, []. now rewrite app_nil_r.
  - destruct fuel as [|fuel]; [lia|]. cbn [retry_loop].
    replace (retries <=? max_retries self)%nat with true
      by (symmetry; apply Nat.leb_le; lia).
    unfold mbind, M_bind at 1. unfold try_request.
    destruct (attempt_request_total tr) as [o ->].
    destruct o as [data|e]; [by eexists _, _|].
    destruct e as [resp| | | | | |]; try by eexists _, _.
    destruct (handle_api_error_pure resp (tr ++ [ev])) as [o Ho].
    destruct (IH (retries + 1) fuel
                ((tr ++ [ev]) ++ [EvSleep (2 ^ Z.of_nat (retries + 1))]))
      as (o' & tr' & Hrest); [lia|lia|].
    destruct (max_retries self <=? retries)%nat.
    + cbv [mbind M_bind mret M_ret sleep]. rewrite Ho.
      destruct o as [pair|e]; [|by eexists _, _].
      rewrite Hrest. eexists _, _. now rewrite <- !app_assoc.
    + cbv [mbind M_bind mret M_ret sleep].
      rewrite Hrest. eexists _, _. now rewrite <- !app_assoc.
Qed.

End ExecutorFacts.

(** [_make_request] always produces an outcome: the loop condition is
    evaluated at most [max_retries + 2] times. *)
Lemma make_request_total
    (API_BASE_URL : string) (net : network) (self : DevRevClient)
    (method endpoint : string) (kwargs : gmap string pyval) (tr : trace) :
  method = "GET" \/ method = "POST" ->
  exists o tr',
    _make_request API_BASE_URL net self method endpoint kwargs tr
    = Some (o, tr ++ tr').
Proof.
  intros Hmethod. unfold _make_request.
  apply (retry_loop_total net self method _ endpoint _ Hmethod
           (max_retries self + 1) 0); lia.
Qed.

(** Any other method is refused inside the first attempt, before a
    request is made, and the [ValueError] is not retried. *)
Lemma make_request_bad_method
    (API_BASE_URL : string) (net : network) (self : DevRevClient)
    (method endpoint : string) (kwargs : gmap string pyval) (tr : trace) :
  String.eqb method "GET" = false ->
  String.eqb method "POST" = false ->
  _make_request API_BASE_URL net self method endpoint kwargs tr
  = Some (Raise (ValueError ("Unsupported HTTP method: " +:+ method)), tr).
Proof.
  intros HG HP. unfold _make_request.
  rewrite Nat.add_comm. cbn [Nat.add retry_loop Nat.leb].
  unfold attempt_request. rewrite HG, HP. reflexivity.
Qed.

(** Every attempt answered with an HTTP error (or otherwise failing with a
    response attached): [max_retries + 1] requests, sleeps of 2, 4, ...,
    [2 ^ max_retries] seconds between them and none after the last, and an
    exception raised by the classifier. *)
Lemma make_request_http_errors
    (API_BASE_URL : string) (net : network) (self : DevRevClient)
    (method endpoint : string) (kwargs : gmap string pyval) (tr : trace) :
  let url := API_BASE_URL +:+ endpoint in
  let kwargs' :=
    setdefault "headers" (PDict (headers self))
      (setdefault "timeout" (PInt (client_timeout self)) kwargs) in
  let ev := EvHttp method url kwargs' in
  method = "GET" \/ method = "POST" ->
  (forall j, j <= max_retries self ->
     exists r, failure_of (net (http_calls tr + j) method url kwargs')
               = Some (Some r)) ->
  exists e tr',
    _make_request API_BASE_URL net self method endpoint kwargs tr
    = Some (Raise e, tr ++ tr')
    /\ tr' = flat_map (round ev client_wait) (seq 0 (max_retries self)) ++ [ev]
    /\ http_calls tr' = max_retries self + 1
    /\ sleeps tr' = map client_wait (seq 0 (max_retries self)).
Proof.
  intros url kwargs' ev Hmethod Hnet.
  destruct (retry_loop_with_response net self method url endpoint kwargs'
              Hmethod (max_retries self) 0 (max_retries self + 2) tr)
    as [e He]; [lia|lia|exact Hnet|].
  exists e. eexists. split; [exact He|]. split; [reflexivity|]. split.
  - rewrite http_calls_app. unfold ev.
    rewrite http_calls_rounds, length_seq. reflexivity.
  - rewrite sleeps_app. unfold ev. rewrite sleeps_rounds.
    cbn. now rewrite app_nil_r.
Qed.

(** C1, evaluated on pure network failures (no response attached to any
    exception): after the last of the [max_retries + 1] attempts the
    executor sleeps once more, [2 ^ (max_retries + 1)] seconds, and only
    then raises the generic "Maximum retries exceeded" exception. *)
Theorem make_request_network_failures
    (API_BASE_URL : string) (self : DevRevClient)
    (endpoint : string) (kwargs : gmap string pyval) (tr : trace) :
  let url := API_BASE_URL +:+ endpoint in
  let kwargs' :=
    setdefault "headers" (PDict (headers self))
      (setdefault "timeout" (PInt (client_timeout self)) kwargs) in
  let ev := EvHttp "GET" url kwargs' in
  let tr' := flat_map (round ev (fun n => 2 ^ Z.of_nat (n + 1))%Z)
               (seq 0 (max_retries self + 1)) in
  _make_request API_BASE_URL unreachable self "GET" endpoint kwargs tr
  = Some (Raise (Exception "Maximum retries exceeded"), tr ++ tr')
  /\ http_calls tr' = max_retries self + 1
  /\ sleeps tr' = map (fun n => 2 ^ Z.of_nat (n + 1))%Z
                    (seq 0 (max_retries self + 1))
  /\ last tr' = Some (EvSleep (2 ^ Z.of_nat (max_retries self + 1))).
Proof.
  intros url kwargs' ev tr'. split; [|split; [|split]].
  - unfold _make_request.
    apply (retry_loop_without_response unreachable self "GET" url endpoint
             kwargs' (or_introl eq_refl)); [lia|lia|reflexivity].
  - unfold tr', ev. rewrite http_calls_rounds, length_seq. reflexivity.
  - unfold tr', ev. now rewrite sleeps_rounds.
  - unfold tr'. rewrite seq_app, flat_map_app. cbn [seq flat_map Nat.add].
    rewrite app_nil_r. unfold round at 2.
    change [ev; ?s] with ([ev] ++ [s]) at 1.
    rewrite app_assoc. apply last_snoc.
Qed.

(** C2, evaluated on a pure network failure (an exception without a
    response): the classifier returns the pair (message, 503) to its
    caller instead of raising, and the executor, whose attempts all fail
    this way, leaves its loop through the condition and ends with the
    generic exception, not with a structured API error. *)
Theorem handle_api_error_network_failure_returns :
  (forall tr,
     handle_api_error None tr = Some (Return (network_message, 503%Z), tr))
  /\ (forall API_BASE_URL self endpoint kwargs tr,
        exists tr',
          _make_request API_BASE_URL unreachable self "GET" endpoint kwargs tr
          = Some (Raise (Exception "Maximum retries exceeded"), tr')).
Proof.
  split; [reflexivity|].
  intros API_BASE_URL self endpoint kwargs tr. eexists.
  unfold _make_request.
  apply (retry_loop_without_response unreachable self "GET" _ endpoint _
           (or_introl eq_refl) (max_retries self + 1) 0); [lia|lia|reflexivity].
Qed.

(** With the default configuration: four requests, then sleeps of
    2, 4, 8 and 16 seconds in total. *)
Example default_client_unreachable_run :
  (fun r => (r.1, http_calls r.2, sleeps r.2))
    <$> _make_request (base_url default_config) unreachable anonymous
          "GET" WORKS_LIST_ENDPOINT ∅ []
  = Some (Raise (Exception "Maximum retries exceeded"), 4, [2; 4; 8; 16]%Z).
Proof. vm_compute. reflexivity. Qed.

(** ** Envelope unwrapping *)

Lemma unwrap_missing_key (endpoint key : string) (empty : pyval)
    (d : gmap string pyval) (tr : trace) :
  (endpoint, (key, empty)) ∈ envelope_defaults ->
  d !! key = None ->
  unwrap endpoint (PDict d) tr = Some (Return empty, tr).
Proof.
  intros Hin Hkey. unfold envelope_defaults in Hin.
  repeat (apply elem_of_cons in Hin as [Heq|Hin];
          [ injection Heq as -> -> ->; unfold unwrap, py_get; cbn;
            rewrite Hkey; reflexivity | ]).
  by apply elem_of_nil in Hin.
Qed.

(** A parsed body that is not an object has no [get] method: on the
    endpoints with an envelope key the [AttributeError] leaves the executor
    after the single request, since only request exceptions are retried. *)
Lemma unwrap_non_object (endpoint key : string) (empty data : pyval)
    (tr : trace) :
  (endpoint, (key, empty)) ∈ envelope_defaults ->
  (forall d, data <> PDict d) ->
  unwrap endpoint data tr = Some (Raise AttributeError, tr).
Proof.
  intros Hin Hdata. unfold envelope_defaults in Hin.
  repeat (apply elem_of_cons in Hin as [Heq|Hin];
          [ injection Heq as -> -> ->; unfold unwrap, py_get; cbn;
            destruct data; try reflexivity; now destruct (Hdata d) | ]).
  by apply elem_of_nil in Hin.
Qed.

(** ** search *)

Lemma namespace_map_known (namespace : string) :
  namespace ∈ valid_namespaces ->
  namespace_map !! namespace
  = Some (if String.eqb namespace "article" then "artifact" else namespace).
Proof.
  intros Hin. unfold valid_namespaces in Hin.
  repeat (apply elem_of_cons in Hin as [->|Hin]; [vm_compute; reflexivity|]).
  by apply elem_of_nil in Hin.
Qed.

(** C6: for every query and namespace, [search] issues the GET request on
    the search endpoint whose parameters are the query, the limit 10 and
    the wire name of the namespace: [artifact] for [article], the tag
    itself for each of the other 33 known tags, and [issue], without any
    exception from the check, for every unknown namespace. *)
Theorem search_request
    (API_BASE_URL : string) (net : network) (self : DevRevClient)
    (query namespace : string) :
  search API_BASE_URL net self query namespace
  = _make_request API_BASE_URL net self "GET" "/search.core"
      {[ "params" :=
           PDict {[ "query" := PStr query;
                    "namespaces" := PStr (spec_wire_namespace namespace);
                    "limit" := PInt 10 ]} ]}
  /\ length valid_namespaces = 34
  /\ (namespace ∉ valid_namespaces -> spec_wire_namespace namespace = "issue").
Proof.
  split; [|split; [reflexivity|]].
  - unfold search, search_params, spec_wire_namespace.
    destruct (bool_decide (namespace ∈ valid_namespaces)) eqn:Hin; cbn [negb].
    + apply bool_decide_eq_true_1 in Hin.
      rewrite (namespace_map_known namespace Hin). reflexivity.
    + reflexivity.
  - intros Hout. unfold spec_wire_namespace.
    now rewrite bool_decide_eq_false_2.
Qed.

Lemma search_request_witness :
  ("widget" ∉ valid_namespaces) /\ spec_wire_namespace "widget" = "issue".
Proof.
  assert (H : "widget" ∉ valid_namespaces)
    by (apply (proj1 (bool_decide_eq_false _)); vm_compute; reflexivity).
  split; [exact H|].
  exact (proj2 (proj2 (search_request "" unreachable
                         (new_client default_config "token" None)
                         "q" "widget")) H).
Defined.

(** ** create_work *)

(** C7, refuted as stated: without a cached identity a task is accepted
    and its payload carries the empty list as [owned_by]. *)
Lemma create_work_anonymous_owner :
  create_work "https://api.devrev.ai" unreachable anonymous
    "task" "Fix login" None None
  = _make_request "https://api.devrev.ai" unreachable anonymous
      "POST" "/works.create"
      {[ "json" := PDict (create_payload anonymous "task" "Fix login" None None) ]}
  /\ create_payload anonymous "task" "Fix login" None None !! "owned_by"
     = Some (PList [])
  /\ ~ (exists id, create_payload anonymous "task" "Fix login" None None
                     !! "owned_by" = Some (PList [id])).
Proof.
  split; [reflexivity|]. split; [reflexivity|].
  intros [id H]. vm_compute in H. discriminate H.
Qed.

Lemma lookup_set_if_truthy (key key' : string) (value : option string)
    (payload : gmap string pyval) :
  key <> key' ->
  set_if_truthy key' value payload !! key = payload !! key.
Proof.
  intros Hne. unfold set_if_truthy.
  destruct value as [v|]; [|reflexivity].
  destruct (String.eqb v ""); [reflexivity|].
  now rewrite lookup_insert_ne.
Qed.

Lemma create_payload_owned_by (self : DevRevClient) (work_type title : string)
    (applies_to_part body : option string) :
  create_payload self work_type title applies_to_part body !! "owned_by"
  = Some (PList (default_owner self)).
Proof.
  unfold create_payload.
  rewrite !lookup_set_if_truthy by discriminate.
  reflexivity.
Qed.

(** C7, amended: [create_work] raises before any request when the work
    type is neither [issue] nor [task] (so always for [ticket]), and when
    it is [issue] and the part reference is absent or empty.  Otherwise it
    posts a payload whose [owned_by] is the single-element list holding the
    cached identity's [id] when the client holds a non-empty cached
    identity, and the empty list when it holds none or an empty one. *)
Theorem create_work_contract
    (API_BASE_URL : string) (net : network) (self : DevRevClient)
    (work_type title : string) (applies_to_part body : option string) :
  (work_type <> "issue" -> work_type <> "task" ->
   forall tr,
     create_work API_BASE_URL net self work_type title applies_to_part body tr
     = Some (Raise (ValueError ("Unsupported work type: " +:+ work_type +:+
                                ". Must be 'issue' or 'task'")), tr))
  /\ (work_type = "issue" ->
      applies_to_part = None \/ applies_to_part = Some "" ->
      forall tr,
        create_work API_BASE_URL net self work_type title applies_to_part
          body tr
        = Some (Raise (ValueError "applies_to_part is required for issues"),
                tr))
  /\ (work_type = "task" \/
      (work_type = "issue" /\ exists part,
          applies_to_part = Some part /\ part <> "") ->
      let payload :=
        create_payload self work_type title applies_to_part body in
      create_work API_BASE_URL net self work_type title applies_to_part body
      = _make_request API_BASE_URL net self "POST" "/works.create"
          {[ "json" := PDict payload ]}
      /\ (forall user,
            _current_user self = Some user -> user <> ∅ ->
            payload !! "owned_by"
            = Some (PList [default PNone (user !! "id")]))
      /\ (_current_user self = None \/ _current_user self = Some ∅ ->
          payload !! "owned_by" = Some (PList []))).
Proof.
  split; [|split].
  - intros Hi Ht tr. unfold create_work.
    rewrite bool_decide_eq_false_2; [reflexivity|].
    intros Hin. apply elem_of_cons in Hin as [->|Hin]; [done|].
    apply elem_of_cons in Hin as [->|Hin]; [done|].
    by apply elem_of_nil in Hin.
  - intros -> Hpart tr. unfold create_work.
    rewrite bool_decide_eq_true_2 by apply list_elem_of_here.
    destruct Hpart as [-> | ->]; reflexivity.
  - intros Hok payload. split; [|split].
    + unfold create_work.
      destruct Hok as [-> | (-> & part & -> & Hpart)].
      * rewrite bool_decide_eq_true_2
          by (apply list_elem_of_further, list_elem_of_here).
        reflexivity.
      * rewrite bool_decide_eq_true_2 by apply list_elem_of_here.
        cbn [negb String.eqb Ascii.eqb Bool.eqb andb truthy_str].
        apply String.eqb_neq in Hpart. rewrite Hpart. reflexivity.
    + intros user Huser Hne. unfold payload.
      rewrite create_payload_owned_by. unfold default_owner.
      rewrite Huser, bool_decide_eq_false_2 by exact Hne. reflexivity.
    + intros Hnone. unfold payload.
      rewrite create_payload_owned_by. unfold default_owner.
      destruct Hnone as [-> | ->]; reflexivity.
Qed.

Lemma create_work_contract_witness :
  create_work "https://api.devrev.ai" unreachable signed_in
    "ticket" "Fix login" (Some "PROD-1") None []
  = Some (Raise (ValueError
                   "Unsupported work type: ticket. Must be 'issue' or 'task'"),
          [])
  /\ create_work "https://api.devrev.ai" unreachable signed_in
       "issue" "Fix login" None None []
     = Some (Raise (ValueError "applies_to_part is required for issues"), [])
  /\ create_payload signed_in "issue" "Fix login" (Some "PROD-1") None
       !! "owned_by"
     = Some (PList [PStr "DEVU-1"])
  /\ create_payload anonymous "task" "Fix login" None None !! "owned_by"
     = Some (PList []).
Proof.
  split; [|split; [|split]].
  - apply (proj1 (create_work_contract "https://api.devrev.ai" unreachable
                    signed_in "ticket" "Fix login" (Some "PROD-1") None));
      discriminate.
  - apply (proj1 (proj2 (create_work_contract "https://api.devrev.ai"
                           unreachable signed_in "issue" "Fix login"
                           None None)));
      [reflexivity|left; reflexivity].
  - refine (proj1 (proj2 (proj2 (proj2
              (create_work_contract "https://api.devrev.ai" unreachable
                 signed_in "issue" "Fix login" (Some "PROD-1") None)) _))
              {[ "id" := PStr "DEVU-1" ]} eq_refl _).
    + right. split; [reflexivity|]. exists "PROD-1".
      split; [reflexivity|discriminate].
    + intros H. apply (f_equal (fun m => m !! "id")) in H.
      vm_compute in H. discriminate H.
  - refine (proj2 (proj2 (proj2 (proj2
              (create_work_contract "https://api.devrev.ai" unreachable
                 anonymous "task" "Fix login" None None)) _)) _).
    + left; reflexivity.
    + left; reflexivity.
Defined.

(** ** get_object *)

Lemma prefix_has_prefix (p s : string) :
  String.prefix p s = true <-> has_prefix p s.
Proof.
  revert s. induction p as [|a p IH]; intros s.
  - split; [intros _; now exists s|intros _; now destruct s].
  - destruct s as [|b s]; cbn [String.prefix].
    + split; [discriminate|intros [rest H]; discriminate H].
    + destruct (Ascii.ascii_dec a b) as [->|Hne].
      * rewrite IH. split; intros [rest H]; exists rest.
        -- cbn. now rewrite H.
        -- cbn in H. now injection H.
      * split; [discriminate|].
        intros [rest H]. cbn in H. injection H as Hab _.
        exfalso. now apply Hne.
Qed.

Lemma startswith_spec (s p : string) :
  startswith s p = true <-> has_prefix p s.
Proof. apply prefix_has_prefix. Qed.

Lemma startswith_false (s p : string) :
  ~ has_prefix p s -> startswith s p = false.
Proof.
  intros H. destruct (startswith s p) eqn:E; [|reflexivity].
  now apply startswith_spec in E.
Qed.

(** C8: [get_object] looks at the literal prefix of the id only.  Ids
    beginning with [ISS-], [TKT-] or [ART-] are fetched from the works
    endpoint, the id [SELF] and ids beginning with [DEVU-] from the
    dev-users endpoint, and every other id raises the unsupported-format
    error with the trace untouched, that is before any request. *)
Theorem get_object_routing
    (API_BASE_URL : string) (net : network) (self : DevRevClient)
    (object_id : string) :
  (has_prefix "ISS-" object_id \/ has_prefix "TKT-" object_id
   \/ has_prefix "ART-" object_id ->
   get_object API_BASE_URL net self object_id
   = _make_request API_BASE_URL net self "GET"
       ("/works.get?id=" +:+ object_id) ∅)
  /\ (object_id = "SELF" \/ has_prefix "DEVU-" object_id ->
      get_object API_BASE_URL net self object_id
      = _make_request API_BASE_URL net self "GET"
          ("/dev-users.get?id=" +:+ object_id) ∅)
  /\ (~ has_prefix "ISS-" object_id -> ~ has_prefix "TKT-" object_id ->
      ~ has_prefix "ART-" object_id -> object_id <> "SELF" ->
      ~ has_prefix "DEVU-" object_id ->
      forall tr,
        get_object API_BASE_URL net self object_id tr
        = Some (Raise (ValueError ("Unsupported object ID format: "
                                   +:+ object_id)), tr)).
Proof.
  split; [|split].
  - intros H. unfold get_object, _determine_object_type.
    destruct (startswith object_id "ISS-") eqn:Hiss; [reflexivity|].
    destruct (startswith object_id "TKT-") eqn:Htkt; [reflexivity|].
    destruct (startswith object_id "ART-") eqn:Hart; [reflexivity|].
    destruct H as [H|[H|H]]; apply startswith_spec in H; congruence.
  - intros H. unfold get_object, _determine_object_type.
    destruct H as [-> | Hdevu]; [reflexivity|].
    pose proof (proj2 (startswith_spec object_id "DEVU-") Hdevu) as Hd.
    destruct Hdevu as [rest ->].
    rewrite Hd, orb_true_r. reflexivity.
  - intros Hiss Htkt Hart Hself Hdevu tr.
    unfold get_object, _determine_object_type.
    rewrite !startswith_false by assumption.
    apply String.eqb_neq in Hself. rewrite Hself. reflexivity.
Qed.

Lemma get_object_routing_witness :
  get_object "https://api.devrev.ai" unreachable anonymous "ISS-42"
  = _make_request "https://api.devrev.ai" unreachable anonymous "GET"
      "/works.get?id=ISS-42" ∅
  /\ get_object "https://api.devrev.ai" unreachable anonymous "TKT-42"
     = _make_request "https://api.devrev.ai" unreachable anonymous "GET"
         "/works.get?id=TKT-42" ∅
  /\ get_object "https://api.devrev.ai" unreachable anonymous "DEVU-7"
     = _make_request "https://api.devrev.ai" unreachable anonymous "GET"
         "/dev-users.get?id=DEVU-7" ∅
  /\ get_object "https://api.devrev.ai" unreachable anonymous "XYZ-1" []
     = Some (Raise (ValueError "Unsupported object ID format: XYZ-1"), []).
Proof.
  split; [|split; [|split]].
  - apply (proj1 (get_object_routing "https://api.devrev.ai" unreachable
                    anonymous "ISS-42")).
    left. exists "42". reflexivity.
  - apply (proj1 (get_object_routing "https://api.devrev.ai" unreachable
                    anonymous "TKT-42")).
    right; left. exists "42". reflexivity.
  - apply (proj1 (proj2 (get_object_routing "https://api.devrev.ai"
                           unreachable anonymous "DEVU-7"))).
    right. exists "7". reflexivity.
  - apply (proj2 (proj2 (get_object_routing "https://api.devrev.ai"
                           unreachable anonymous "XYZ-1")));
      try (intros [rest H]; discriminate H); discriminate.
Defined.

(** ** update_work *)

Lemma lookup_set_if_given (key key' : string) (value : option string)
    (payload : gmap string pyval) :
  set_if_given key' value payload !! key
  = if decide (key = key')
    then match value with
         | Some v => Some (PStr v)
         | None => payload !! key
         end
    else payload !! key.
Proof.
  unfold set_if_given. destruct value as [v|].
  - case_decide as H; [subst; apply lookup_insert_eq|].
    now apply lookup_insert_ne.
  - now case_decide.
Qed.

(** C9: the payload of [update_work] maps [id] to the target id, maps each
    of [title], [applies_to_part], [body], [stage], [status] that was
    supplied to the supplied value, and has no other key; with only the
    status supplied it is exactly [{id, status}]. *)
Theorem update_work_payload
    (API_BASE_URL : string) (net : network) (self : DevRevClient)
    (work_id : string) (title applies_to_part body stage status : option string) :
  let payload :=
    update_payload work_id title applies_to_part body stage status in
  update_work API_BASE_URL net self work_id title applies_to_part body
    stage status
  = _make_request API_BASE_URL net self "POST" "/works.update"
      {[ "json" := PDict payload ]}
  /\ (forall key,
        payload !! key
        = if decide (key = "id") then Some (PStr work_id)
          else if decide (key = "title") then PStr <$> title
          else if decide (key = "applies_to_part") then PStr <$> applies_to_part
          else if decide (key = "body") then PStr <$> body
          else if decide (key = "stage") then PStr <$> stage
          else if decide (key = "status") then PStr <$> status
          else None)
  /\ (forall closed,
        update_payload work_id None None None None (Some closed)
        = {[ "id" := PStr work_id; "status" := PStr closed ]}).
Proof.
  intros payload. split; [reflexivity|]. split.
  - intros key. unfold payload, update_payload.
    rewrite !lookup_set_if_given.
    destruct title, applies_to_part, body, stage, status;
      repeat case_decide; subst; try discriminate;
      by simplify_map_eq.
  - intros closed. unfold update_payload, set_if_given.
    apply insert_insert_ne. discriminate.
Qed.

(** * Further properties of the executor *)

Lemma unwrap_cases (endpoint : string) (data : pyval) (tr : trace) :
  (exists v, unwrap endpoint data tr = Some (Return v, tr))
  \/ unwrap endpoint data tr = Some (Raise AttributeError, tr).
Proof.
  unfold unwrap, py_get.
  repeat case_match; (by left; eexists) || by right.
Qed.

Lemma sum_client_wait (n start : nat) :
  foldr Z.add 0%Z (map client_wait (seq start n))
  = (2 ^ Z.of_nat (start + n + 1) - 2 ^ Z.of_nat (start + 1))%Z.
Proof.
  revert start. induction n as [|n IH]; intros start.
  - cbn. rewrite Nat.add_0_r. lia.
  - cbn [seq map foldr]. rewrite IH. unfold client_wait.
    replace (S start + n + 1) with (start + S n + 1) by lia.
    replace (Z.of_nat (S start + 1)) with (Z.succ (Z.of_nat (start + 1)))
      by lia.
    rewrite Z.pow_succ_r by lia. lia.
Qed.

Section ExecutorShape.
Variable net : network.
Variable self : DevRevClient.
Variables method url endpoint : string.
Variable kwargs : gmap string pyval.
Hypothesis Hmethod : method = "GET" \/ method = "POST".

Let ev : event := EvHttp method url kwargs.

(** Whatever the network does, the loop performs some rounds and then
    either leaves through its condition, after [max_retries + 1] rounds,
    or ends right after a request. *)
Lemma retry_loop_shape :
  forall k retries fuel tr,
    retries + k = max_retries self + 1 ->
    k + 1 <= fuel ->
    exists o n last,
      retry_loop net self fuel method url endpoint kwargs retries tr
      = Some (o, tr ++ flat_map (round ev client_wait) (seq retries n) ++ last)
      /\ ((last = [] /\ n = k
           /\ o = Raise (Exception "Maximum retries exceeded"))
          \/ (last = [ev] /\ n < k)).
Proof.
  induction k as [|k IH]; intros retries fuel tr Hk Hfuel.
  - destruct fuel as [|fuel]; [lia|]. cbn [retry_loop].
    replace (retries <=? max_retries self)%nat with false
      by (symmetry; apply Nat.leb_gt; lia).
    exists (Raise (Exception "Maximum retries exceeded")), 0, [].
    split; [|by left]. cbn. now rewrite app_nil_r.
  - destruct fuel as [|fuel]; [lia|]. cbn [retry_loop].
    replace (retries <=? max_retries self)%nat with true
      by (symmetry; apply Nat.leb_le; lia).
    unfold mbind, M_bind at 1. unfold try_request.
    destruct (attempt_request_total net method url endpoint kwargs Hmethod tr)
      as [o ->]. fold ev.
    assert (Hstop : forall o' : outcome pyval,
              exists n last,
                Some (o', tr ++ [ev])
                = Some (o', tr ++ flat_map (round ev client_wait)
                                     (seq retries n) ++ last)
                /\ ((last = [] /\ n = S k
                     /\ o' = Raise (Exception "Maximum retries exceeded"))
                    \/ (last = [ev] /\ n < S k))).
    { intros o'. exists 0, [ev]. split; [reflexivity|right; split; [done|lia]]. }
    destruct o as [data|e]; [eexists; apply Hstop|].
    destruct e as [resp| | | | | |]; try (eexists; apply Hstop).
    destruct (handle_api_error_pure resp (tr ++ [ev])) as [o Ho].
    destruct (IH (retries + 1) fuel
                ((tr ++ [ev]) ++ [EvSleep (2 ^ Z.of_nat (retries + 1))]))
      as (o' & n & last & Hrest & Hshape); [lia|lia|].
    assert (Hgo : exists o2 n2 last2,
              Some (o', ((tr ++ [ev]) ++ [EvSleep (2 ^ Z.of_nat (retries + 1))])
                          ++ flat_map (round ev client_wait)
                               (seq (retries + 1) n) ++ last)
              = Some (o2, tr ++ flat_map (round ev client_wait)
                                  (seq retries n2) ++ last2)
              /\ ((last2 = [] /\ n2 = S k
                   /\ o2 = Raise (Exception "Maximum retries exceeded"))
                  \/ (last2 = [ev] /\ n2 < S k))).
    { exists o', (S n), last. split.
      - replace (seq (retries + 1) n) with (seq (S retries) n)
          by (f_equal; lia).
        cbn [seq flat_map]. rewrite <- !app_assoc. reflexivity.
      - destruct Hshape as [(-> & -> & ->)|(-> & Hn)];
          [left; done|right; split; [done|lia]]. }
    destruct (max_retries self <=? retries)%nat.
    + cbv [mbind M_bind mret M_ret sleep]. rewrite Ho.
      destruct o as [pair|e]; [|eexists; apply Hstop].
      rewrite Hrest. exact Hgo.
    + cbv [mbind M_bind mret M_ret sleep].
      rewrite Hrest. exact Hgo.
Qed.

(** The first [k] attempts fail, the next one is answered: the loop
    sleeps between the attempts and ends with the unwrapping of the
    answer. *)
Lemma retry_loop_recovers (data : pyval) :
  forall k retries fuel tr,
    retries + k <= max_retries self ->
    k + 1 <= fuel ->
    (forall j, j < k ->
       failure_of (net (http_calls tr + j) method url kwargs) <> None) ->
    success_of (net (http_calls tr + k) method url kwargs) = Some data ->
    retry_loop net self fuel method url endpoint kwargs retries tr
    = unwrap endpoint data
        (tr ++ flat_map (round ev client_wait) (seq retries k) ++ [ev]).
Proof.
  induction k as [|k IH]; intros retries fuel tr Hk Hfuel Hfail Hok.
  - destruct fuel as [|fuel]; [lia|]. cbn [retry_loop].
    replace (retries <=? max_retries self)%nat with true
      by (symmetry; apply Nat.leb_le; lia).
    rewrite Nat.add_0_r in Hok.
    unfold mbind, M_bind at 1. unfold try_request.
    rewrite (attempt_request_succeeds net method url endpoint kwargs Hmethod
               tr data Hok).
    cbn [seq flat_map app]. fold ev.
    destruct (unwrap_cases endpoint data (tr ++ [ev])) as [[v ->] | ->];
      reflexivity.
  - destruct fuel as [|fuel]; [lia|]. cbn [retry_loop].
    replace (retries <=? max_retries self)%nat with true
      by (symmetry; apply Nat.leb_le; lia).
    unfold mbind, M_bind at 1.
    destruct (failure_of (net (http_calls tr) method url kwargs))
      as [e|] eqn:He.
    2:{ specialize (Hfail 0 (Nat.lt_0_succ k)).
        rewrite Nat.add_0_r in Hfail. contradiction. }
    rewrite (attempt_request_fails net method url endpoint kwargs Hmethod
               tr e He).
    replace (max_retries self <=? retries)%nat with false
      by (symmetry; apply Nat.leb_gt; lia).
    cbv [mbind M_bind mret M_ret sleep]. fold ev.
    rewrite IH.
    + replace (seq (retries + 1) k) with (seq (S retries) k)
        by (f_equal; lia).
      cbn [seq flat_map]. rewrite <- !app_assoc. reflexivity.
    + lia.
    + lia.
    + intros j Hj.
      rewrite (http_calls_after_round method url kwargs). apply Hfail. lia.
    + rewrite (http_calls_after_round method url kwargs).
      replace (http_calls tr + S k) with (http_calls tr + S k) by lia.
      exact Hok.
Qed.

End ExecutorShape.

(** An answer to the first attempt ends the call with its unwrapping. *)
Lemma make_request_first_answer
    (API_BASE_URL : string) (net : network) (self : DevRevClient)
    (method endpoint : string) (kwargs : gmap string pyval) (tr : trace)
    (data : pyval) :
  let url := API_BASE_URL +:+ endpoint in
  method = "GET" \/ method = "POST" ->
  success_of (net (http_calls tr) method url (request_kwargs self kwargs))
  = Some data ->
  _make_request API_BASE_URL net self method endpoint kwargs tr
  = unwrap endpoint data
      (tr ++ [EvHttp method url (request_kwargs self kwargs)]).
Proof.
  intros url Hmethod Hok.
  exact (retry_loop_recovers net self method url endpoint
           (request_kwargs self kwargs) Hmethod data 0 0
           (max_retries self + 2) tr
           ltac:(lia) ltac:(lia) ltac:(intros j Hj; lia)
           ltac:(now rewrite Nat.add_0_r)).
Qed.

(** C10, refuted as stated: a successful response on the search endpoint
    whose body is the JSON array [[]], which holds no [results] key, makes
    the executor raise [AttributeError] instead of returning the empty
    list. *)
Lemma make_request_array_body_raises :
  success_of (always array_body 0 "GET" "https://api.devrev.ai/search.core"
                (request_kwargs anonymous ∅))
  = Some (PList [])
  /\ fst <$> _make_request "https://api.devrev.ai" (always array_body)
               anonymous "GET" "/search.core" ∅ []
     = Some (Raise AttributeError).
Proof. split; vm_compute; reflexivity. Qed.

(** C10, amended: a successful response on an endpoint with a known
    envelope key, whose parsed body is a JSON object without that key,
    makes the executor return the empty default: [[]] for search,
    works.list and parts.list, [{}] for works.create, works.update and
    parts.get.  This holds whether the response answers the first attempt
    or a retry after [k <= max_retries] failed attempts, and nothing is
    done after the answered request. *)
Theorem make_request_missing_envelope
    (API_BASE_URL : string) (net : network) (self : DevRevClient)
    (method endpoint key : string) (empty : pyval)
    (kwargs d : gmap string pyval) (tr : trace) (k : nat) :
  let url := API_BASE_URL +:+ endpoint in
  let kwargs' :=
    setdefault "headers" (PDict (headers self))
      (setdefault "timeout" (PInt (client_timeout self)) kwargs) in
  let ev := EvHttp method url kwargs' in
  method = "GET" \/ method = "POST" ->
  (endpoint, (key, empty)) ∈ envelope_defaults ->
  k <= max_retries self ->
  (forall j, j < k ->
     failure_of (net (http_calls tr + j) method url kwargs') <> None) ->
  success_of (net (http_calls tr + k) method url kwargs') = Some (PDict d) ->
  d !! key = None ->
  _make_request API_BASE_URL net self method endpoint kwargs tr
  = Some (Return empty,
          tr ++ flat_map (round ev (fun i => 2 ^ Z.of_nat (i + 1))%Z) (seq 0 k)
             ++ [ev]).
Proof.
  intros url kwargs' ev Hmethod Hin Hk Hfail Hok Hkey.
  etransitivity.
  - exact (retry_loop_recovers net self method url endpoint kwargs' Hmethod
             (PDict d) k 0 (max_retries self + 2) tr
             ltac:(lia) ltac:(lia) Hfail Hok).
  - apply (unwrap_missing_key endpoint key empty d _ Hin Hkey).
Qed.

Lemma make_request_missing_envelope_witness :
  fst <$> _make_request "https://api.devrev.ai" empty_object anonymous
            "GET" "/search.core" ∅ []
  = Some (Return (PList []))
  /\ (fun r => (r.1, sleeps r.2))
       <$> _make_request "https://api.devrev.ai"
             (flaky 1 (Response 200 "{}" (Some (PDict ∅)))) anonymous
             "POST" "/works.update" ∅ []
     = Some (Return (PDict ∅), [2%Z]).
Proof.
  split.
  - rewrite (make_request_missing_envelope "https://api.devrev.ai"
               empty_object anonymous "GET" "/search.core" "results"
               (PList []) ∅ ∅ [] 0).
    + reflexivity.
    + left; reflexivity.
    + apply list_elem_of_here.
    + vm_compute. lia.
    + intros j Hj. lia.
    + reflexivity.
    + reflexivity.
  - rewrite (make_request_missing_envelope "https://api.devrev.ai"
               (flaky 1 (Response 200 "{}" (Some (PDict ∅)))) anonymous
               "POST" "/works.update" "work" (PDict ∅) ∅ ∅ [] 1).
    + reflexivity.
    + right; reflexivity.
    + do 3 apply list_elem_of_further. apply list_elem_of_here.
    + vm_compute. lia.
    + intros j Hj. replace j with 0 by lia. intros H. cbn in H. discriminate H.
    + reflexivity.
    + reflexivity.
Defined.

(** X1: when the first [k <= max_retries] attempts of a call fail with a
    request exception and the next attempt is answered with a JSON body,
    the executor makes [k + 1] requests, sleeps 2, 4, ..., [2 ^ k] seconds
    between them, and ends with the unwrapping of that body. *)
Theorem make_request_recovers
    (API_BASE_URL : string) (net : network) (self : DevRevClient)
    (method endpoint : string) (kwargs : gmap string pyval) (tr : trace)
    (k : nat) (data : pyval) :
  let url := API_BASE_URL +:+ endpoint in
  let ev := EvHttp method url (request_kwargs self kwargs) in
  method = "GET" \/ method = "POST" ->
  k <= max_retries self ->
  (forall j, j < k ->
     failure_of (net (http_calls tr + j) method url
                   (request_kwargs self kwargs)) <> None) ->
  success_of (net (http_calls tr + k) method url (request_kwargs self kwargs))
  = Some data ->
  exists tr',
    _make_request API_BASE_URL net self method endpoint kwargs tr
    = unwrap endpoint data (tr ++ tr')
    /\ tr' = flat_map (round ev (fun i => 2 ^ Z.of_nat (i + 1))%Z) (seq 0 k)
             ++ [ev]
    /\ http_calls tr' = k + 1
    /\ sleeps tr' = map (fun i => 2 ^ Z.of_nat (i + 1))%Z (seq 0 k).
Proof.
  intros url ev Hmethod Hk Hfail Hok. eexists.
  split; [|split; [reflexivity|split]].
  - unfold _make_request.
    apply (retry_loop_recovers net self method url endpoint
             (request_kwargs self kwargs) Hmethod data k 0
             (max_retries self + 2) tr); [lia|lia|exact Hfail|exact Hok].
  - rewrite http_calls_app. unfold ev.
    rewrite http_calls_rounds, length_seq. reflexivity.
  - rewrite sleeps_app. unfold ev. rewrite sleeps_rounds.
    cbn. now rewrite app_nil_r.
Qed.

Lemma make_request_recovers_witness :
  exists tr',
    _make_request "https://api.devrev.ai" (flaky 2 works_page) anonymous
      "GET" "/works.list" ∅ []
    = Some (Return (PList [PStr "ISS-1"; PStr "ISS-2"]), tr')
    /\ http_calls tr' = 3
    /\ sleeps tr' = [2; 4]%Z.
Proof.
  destruct (make_request_recovers "https://api.devrev.ai" (flaky 2 works_page)
              anonymous "GET" "/works.list" ∅ [] 2
              (PDict {[ "works" := PList [PStr "ISS-1"; PStr "ISS-2"] ]}))
    as (tr' & Hrun & -> & Hcalls & Hsleeps).
  - left; reflexivity.
  - vm_compute. lia.
  - intros j Hj. unfold flaky. cbn [http_calls List.filter length Nat.add].
    rewrite (proj2 (Nat.ltb_lt j 2) Hj). intros H. cbn in H. discriminate H.
  - reflexivity.
  - eexists. split; [|split; [exact Hcalls|exact Hsleeps]].
    rewrite Hrun. reflexivity.
Defined.

(** X2: whatever the network does, one call of the executor terminates,
    makes at most [max_retries + 1] requests, all with the same method, URL
    and keyword arguments, does nothing else but sleep, and its sleeps are
    2, 4, ..., [2 ^ n] seconds for some [n <= max_retries + 1]: at most
    [2 ^ (max_retries + 2) - 2] seconds in total. *)
Theorem make_request_bounded
    (API_BASE_URL : string) (net : network) (self : DevRevClient)
    (method endpoint : string) (kwargs : gmap string pyval) (tr : trace) :
  let ev := EvHttp method (API_BASE_URL +:+ endpoint)
              (request_kwargs self kwargs) in
  method = "GET" \/ method = "POST" ->
  exists o tr' n,
    _make_request API_BASE_URL net self method endpoint kwargs tr
    = Some (o, tr ++ tr')
    /\ http_calls tr' <= max_retries self + 1
    /\ Forall (fun e => e = ev \/ exists seconds, e = EvSleep seconds) tr'
    /\ n <= max_retries self + 1
    /\ sleeps tr' = map (fun i => 2 ^ Z.of_nat (i + 1))%Z (seq 0 n)
    /\ (total_sleep tr' <= 2 ^ Z.of_nat (max_retries self + 2) - 2)%Z.
Proof.
  intros ev Hmethod. unfold _make_request.
  destruct (retry_loop_shape net self method (API_BASE_URL +:+ endpoint)
              endpoint (request_kwargs self kwargs) Hmethod
              (max_retries self + 1) 0 (max_retries self + 2) tr)
    as (o & n & last & Hrun & Hshape); [lia|lia|].
  fold ev in Hrun, Hshape.
  exists o, (flat_map (round ev client_wait) (seq 0 n) ++ last), n.
  assert (Hn : n <= max_retries self + 1)
    by (destruct Hshape as [(_ & -> & _)|(_ & Hlt)]; lia).
  assert (Hsleeps : sleeps (flat_map (round ev client_wait) (seq 0 n) ++ last)
                    = map client_wait (seq 0 n)).
  { rewrite sleeps_app. unfold ev at 1. rewrite sleeps_rounds.
    destruct Hshape as [(-> & _)|(-> & _)]; cbn; now rewrite app_nil_r. }
  split; [exact Hrun|]. split; [|split; [|split; [exact Hn|split]]].
  - rewrite http_calls_app. unfold ev at 1.
    rewrite http_calls_rounds, length_seq.
    destruct Hshape as [(-> & -> & _)|(-> & Hlt)]; cbn; lia.
  - apply Forall_app. split.
    + apply Forall_flat_map, Forall_forall. intros i _.
      unfold round. constructor; [left; reflexivity|].
      constructor; [right; eexists; reflexivity|constructor].
    + destruct Hshape as [(-> & _)|(-> & _)]; [constructor|].
      constructor; [left; reflexivity|constructor].
  - exact Hsleeps.
  - unfold total_sleep. rewrite Hsleeps, sum_client_wait.
    cbn [Nat.add]. change (2 ^ Z.of_nat 1)%Z with 2%Z.
    assert (2 ^ Z.of_nat (n + 1) <= 2 ^ Z.of_nat (max_retries self + 2))%Z
      by (apply Z.pow_le_mono_r; lia).
    lia.
Qed.

Lemma make_request_bounded_witness :
  exists o tr',
    _make_request "https://api.devrev.ai" unreachable anonymous
      "GET" "/works.list" ∅ []
    = Some (o, tr')
    /\ http_calls tr' <= 4
    /\ (total_sleep tr' <= 30)%Z.
Proof.
  destruct (make_request_bounded "https://api.devrev.ai" unreachable anonymous
              "GET" "/works.list" ∅ [] (or_introl eq_refl))
    as (o & tr' & n & Hrun & Hcalls & _ & _ & _ & Htotal).
  exists o, tr'. split; [exact Hrun|]. split; [exact Hcalls|exact Htotal].
Defined.

(** X3: a successful response on an endpoint with an envelope key, whose
    body is an object holding that key, makes the executor return the
    value stored under the key, whatever it is, after that single
    request. *)
Theorem make_request_unwraps_envelope
    (API_BASE_URL : string) (net : network) (self : DevRevClient)
    (method endpoint key : string) (empty value : pyval)
    (kwargs d : gmap string pyval) (tr : trace) :
  let url := API_BASE_URL +:+ endpoint in
  method = "GET" \/ method = "POST" ->
  (endpoint, (key, empty)) ∈ envelope_defaults ->
  success_of (net (http_calls tr) method url (request_kwargs self kwargs))
  = Some (PDict d) ->
  d !! key = Some value ->
  _make_request API_BASE_URL net self method endpoint kwargs tr
  = Some (Return value,
          tr ++ [EvHttp method url (request_kwargs self kwargs)]).
Proof.
  intros url Hmethod Hin Hok Hkey.
  rewrite (make_request_first_answer API_BASE_URL net self method endpoint
             kwargs tr (PDict d) Hmethod Hok).
  unfold envelope_defaults in Hin.
  repeat (apply elem_of_cons in Hin as [Heq|Hin];
          [ injection Heq as -> -> ->; unfold unwrap, py_get; cbn;
            rewrite Hkey; reflexivity | ]).
  by apply elem_of_nil in Hin.
Qed.

Lemma make_request_unwraps_envelope_witness :
  exists tr',
    _make_request "https://api.devrev.ai" (always works_page) anonymous
      "GET" "/works.list" ∅ []
    = Some (Return (PList [PStr "ISS-1"; PStr "ISS-2"]), tr').
Proof.
  eexists.
  apply (make_request_unwraps_envelope "https://api.devrev.ai"
           (always works_page) anonymous "GET" "/works.list" "works"
           (PList []) (PList [PStr "ISS-1"; PStr "ISS-2"]) ∅
           {[ "works" := PList [PStr "ISS-1"; PStr "ISS-2"] ]} []).
  - left; reflexivity.
  - apply list_elem_of_further, list_elem_of_here.
  - reflexivity.
  - reflexivity.
Defined.

(** X4: a successful response on an endpoint with an envelope key, whose
    body is valid JSON but not an object, ends the call with
    [AttributeError] after that single request: the failure is neither
    retried nor turned into a structured API error. *)
Theorem make_request_non_object_body
    (API_BASE_URL : string) (net : network) (self : DevRevClient)
    (method endpoint key : string) (empty data : pyval)
    (kwargs : gmap string pyval) (tr : trace) :
  let url := API_BASE_URL +:+ endpoint in
  method = "GET" \/ method = "POST" ->
  (endpoint, (key, empty)) ∈ envelope_defaults ->
  success_of (net (http_calls tr) method url (request_kwargs self kwargs))
  = Some data ->
  (forall d, data <> PDict d) ->
  _make_request API_BASE_URL net self method endpoint kwargs tr
  = Some (Raise AttributeError,
          tr ++ [EvHttp method url (request_kwargs self kwargs)]).
Proof.
  intros url Hmethod Hin Hok Hdata.
  rewrite (make_request_first_answer API_BASE_URL net self method endpoint
             kwargs tr data Hmethod Hok).
  apply (unwrap_non_object endpoint key empty data _ Hin Hdata).
Qed.

Lemma make_request_non_object_body_witness :
  exists tr',
    _make_request "https://api.devrev.ai" (always array_body) anonymous
      "GET" "/search.core" ∅ []
    = Some (Raise AttributeError, tr')
    /\ http_calls tr' = 1.
Proof.
  eexists. split.
  - apply (make_request_non_object_body "https://api.devrev.ai"
             (always array_body) anonymous "GET" "/search.core" "results"
             (PList []) (PList []) ∅ []).
    + left; reflexivity.
    + apply list_elem_of_here.
    + reflexivity.
    + intros d H. discriminate H.
  - reflexivity.
Defined.

(** X5: a method other than GET and POST is refused with [ValueError]
    inside the first attempt: no request is made, nothing is retried and
    no time is spent sleeping. *)
Theorem make_request_unsupported_method
    (API_BASE_URL : string) (net : network) (self : DevRevClient)
    (method endpoint : string) (kwargs : gmap string pyval) (tr : trace) :
  method <> "GET" -> method <> "POST" ->
  _make_request API_BASE_URL net self method endpoint kwargs tr
  = Some (Raise (ValueError ("Unsupported HTTP method: " +:+ method)), tr).
Proof.
  intros HG HP.
  apply make_request_bad_method; now apply String.eqb_neq.
Qed.

Lemma make_request_unsupported_method_witness :
  _make_request "https://api.devrev.ai" unreachable anonymous
    "DELETE" "/works.get" ∅ []
  = Some (Raise (ValueError "Unsupported HTTP method: DELETE"), []).
Proof.
  apply (make_request_unsupported_method "https://api.devrev.ai" unreachable
           anonymous "DELETE" "/works.get" ∅ []); discriminate.
Defined.

Lemma lookup_setdefault (key key' : string) (value : pyval)
    (d : gmap string pyval) :
  setdefault key' value d !! key
  = if decide (key = key') then Some (default value (d !! key))
    else d !! key.
Proof.
  unfold setdefault. destruct (d !! key') as [v|] eqn:Hd.
  - case_decide as H; [subst; now rewrite Hd|reflexivity].
  - case_decide as H; [subst; rewrite Hd; apply lookup_insert_eq|].
    now apply lookup_insert_ne.
Qed.

(** X6: every call of the executor with GET or POST starts with a request
    to the base URL followed by the endpoint, whose keyword arguments are
    the caller's, completed with the client's timeout and headers where
    the caller gave none; a timeout or headers supplied by the caller are
    kept. *)
Theorem make_request_first_request
    (API_BASE_URL : string) (net : network) (self : DevRevClient)
    (method endpoint : string) (kwargs : gmap string pyval) (tr : trace) :
  method = "GET" \/ method = "POST" ->
  exists o sent rest,
    _make_request API_BASE_URL net self method endpoint kwargs tr
    = Some (o, tr ++ EvHttp method (API_BASE_URL +:+ endpoint) sent :: rest)
    /\ (forall key,
          sent !! key
          = if decide (key = "headers")
            then Some (default (PDict (headers self)) (kwargs !! "headers"))
            else if decide (key = "timeout")
            then Some (default (PInt (client_timeout self))
                         (kwargs !! "timeout"))
            else kwargs !! key).
Proof.
  intros Hmethod. unfold _make_request.
  destruct (retry_loop_shape net self method (API_BASE_URL +:+ endpoint)
              endpoint (request_kwargs self kwargs) Hmethod
              (max_retries self + 1) 0 (max_retries self + 2) tr)
    as (o & n & last & Hrun & Hshape); [lia|lia|].
  exists o, (request_kwargs self kwargs).
  assert (Hfirst : exists rest,
            flat_map (round (EvHttp method (API_BASE_URL +:+ endpoint)
                               (request_kwargs self kwargs)) client_wait)
              (seq 0 n) ++ last
            = EvHttp method (API_BASE_URL +:+ endpoint)
                (request_kwargs self kwargs) :: rest).
  { destruct Hshape as [(-> & -> & _)|(-> & _)].
    - rewrite Nat.add_1_r. cbn [seq flat_map round app]. eexists. reflexivity.
    - destruct n; cbn [seq flat_map round app]; eexists; reflexivity. }
  destruct Hfirst as [rest Hfirst]. exists rest. split.
  - rewrite Hfirst in Hrun. exact Hrun.
  - intros key. unfold request_kwargs. rewrite !lookup_setdefault.
    repeat case_decide; subst; try discriminate; reflexivity.
Qed.

Lemma make_request_first_request_witness :
  exists o sent rest,
    _make_request "https://api.devrev.ai" unreachable anonymous
      "GET" "/parts.get" {[ "timeout" := PInt 5 ]} []
    = Some (o, EvHttp "GET" "https://api.devrev.ai/parts.get" sent :: rest)
    /\ sent !! "timeout" = Some (PInt 5)
    /\ sent !! "headers" = Some (PDict (headers anonymous)).
Proof.
  destruct (make_request_first_request "https://api.devrev.ai" unreachable
              anonymous "GET" "/parts.get" {[ "timeout" := PInt 5 ]} []
              (or_introl eq_refl))
    as (o & sent & rest & Hrun & Hsent).
  exists o, sent, rest. split; [exact Hrun|]. split.
  - rewrite (Hsent "timeout"). reflexivity.
  - rewrite (Hsent "headers"). reflexivity.
Defined.

(** * Further properties of get_object *)





(** * Further properties of the auth validator *)

Lemma sum_validator_wait (n start : nat) :
  foldr Z.add 0%Z (map validator_wait (seq start n))
  = (2 ^ Z.of_nat (start + n) - 2 ^ Z.of_nat start)%Z.
Proof.
  revert start. induction n as [|n IH]; intros start.
  - cbn. rewrite Nat.add_0_r. lia.
  - cbn [seq map foldr]. rewrite IH. unfold validator_wait.
    replace (S start + n) with (start + S n) by lia.
    replace (Z.of_nat (S start)) with (Z.succ (Z.of_nat start)) by lia.
    rewrite Z.pow_succ_r by lia. lia.
Qed.

Section ValidatorShape.
Variable config : APIConfig.
Variable net : network.
Variable api_key : string.

Let url : string := base_url config +:+ DEV_USER_SELF_ENDPOINT.
Let kwargs : gmap string pyval :=
  {[ "headers" := PDict {[ "Authorization" := PStr api_key;
                           "Content-Type" := PStr "application/json" ]};
     "timeout" := PInt (timeout config) ]}.
Let ev : event := EvHttp "GET" url kwargs.

(** One attempt of the validator: a request exception for the handler, a
    value to return, or the [AttributeError] of a body that is not an
    object. *)
Lemma validate_attempt_cases (tr : trace) :
  (exists e, failure_of (net (http_calls tr) "GET" url kwargs) = Some e
             /\ try_request (validate_attempt config net api_key) tr
                = Some (Return (inl e), tr ++ [ev]))
  \/ (exists data,
        success_of (net (http_calls tr) "GET" url kwargs) = Some data
        /\ ((exists d, data = PDict d
                       /\ try_request (validate_attempt config net api_key) tr
                          = Some (Return (inr (dict_get d "dev_user")),
                                  tr ++ [ev]))
            \/ ((forall d, data <> PDict d)
                /\ try_request (validate_attempt config net api_key) tr
                   = Some (Raise AttributeError, tr ++ [ev])))).
Proof.
  unfold validate_attempt. run. fold url kwargs ev.
  destruct (net _ _ _ _) as [r|resp]; cbn [failure_of success_of].
  - destruct (_ && _); run; cbn; [left; eauto|].
    destruct (json r) as [data|]; run; cbn; [|left; eauto].
    right. exists data. split; [reflexivity|].
    destruct data; try (right; split; [discriminate|reflexivity]).
    left. eexists. split; reflexivity.
  - left. eauto.
Qed.

(** Whatever the network does, the validator performs some rounds and
    ends right after a request, with a value or with [AttributeError]. *)
Lemma validate_loop_shape (max_retries : nat) :
  forall k start tr,
    start + k = max_retries ->
    exists o n,
      validate_loop config net api_key max_retries (seq start (k + 1)) tr
      = Some (o, tr ++ flat_map (round ev validator_wait) (seq start n) ++ [ev])
      /\ n <= k
      /\ ((exists v, o = Return v) \/ o = Raise AttributeError).
Proof.
  induction k as [|k IH]; intros start tr Hk.
  - cbn [Nat.add seq validate_loop]. unfold mbind, M_bind at 1.
    destruct (validate_attempt_cases tr)
      as [(e & _ & ->)|(data & _ & [(d & _ & ->)|(_ & ->)])].
    + replace (start =? max_retries)%nat with true
        by (symmetry; apply Nat.eqb_eq; lia).
      exists (Return PNone), 0. split; [reflexivity|]. split; [lia|eauto].
    + exists (Return (dict_get d "dev_user")), 0.
      split; [reflexivity|]. split; [lia|eauto].
    + exists (Raise AttributeError), 0.
      split; [reflexivity|]. split; [lia|eauto].
  - cbn [Nat.add seq validate_loop]. unfold mbind, M_bind at 1.
    destruct (validate_attempt_cases tr)
      as [(e & _ & ->)|(data & _ & [(d & _ & ->)|(_ & ->)])].
    + replace (start =? max_retries)%nat with false
        by (symmetry; apply Nat.eqb_neq; lia).
      cbv [mbind M_bind sleep].
      change (k + 1) with (Nat.add k 1) in IH.
      destruct (IH (S start) ((tr ++ [ev]) ++ [EvSleep (2 ^ Z.of_nat start)]))
        as (o & n & Hrun & Hn & Ho); [lia|].
      exists o, (S n). split; [|split; [lia|exact Ho]].
      rewrite Hrun. cbn [seq flat_map round]. unfold validator_wait at 2.
      now rewrite <- !app_assoc.
    + exists (Return (dict_get d "dev_user")), 0.
      split; [reflexivity|]. split; [lia|eauto].
    + exists (Raise AttributeError), 0.
      split; [reflexivity|]. split; [lia|eauto].
Qed.

(** The first [k] attempts fail, the next one is answered with an
    object. *)
Lemma validate_loop_recovers (max_retries : nat) (d : gmap string pyval) :
  forall k m start tr,
    start + m = max_retries ->
    k <= m ->
    (forall j, j < k ->
       failure_of (net (http_calls tr + j) "GET" url kwargs) <> None) ->
    success_of (net (http_calls tr + k) "GET" url kwargs) = Some (PDict d) ->
    validate_loop config net api_key max_retries (seq start (m + 1)) tr
    = Some (Return (dict_get d "dev_user"),
            tr ++ flat_map (round ev validator_wait) (seq start k) ++ [ev]).
Proof.
  induction k as [|k IH]; intros m start tr Hm Hk Hfail Hok.
  - rewrite Nat.add_0_r in Hok. rewrite Nat.add_1_r.
    cbn [seq validate_loop]. unfold mbind, M_bind at 1.
    now rewrite (validate_attempt_succeeds config net api_key tr d Hok).
  - destruct m as [|m]; [lia|].
    cbn [Nat.add seq validate_loop]. unfold mbind, M_bind at 1.
    destruct (failure_of (net (http_calls tr) "GET" url kwargs))
      as [e|] eqn:He.
    2:{ specialize (Hfail 0 (Nat.lt_0_succ k)).
        rewrite Nat.add_0_r in Hfail. contradiction. }
    rewrite (validate_attempt_fails config net api_key tr e He).
    replace (start =? max_retries)%nat with false
      by (symmetry; apply Nat.eqb_neq; lia).
    cbv [mbind M_bind sleep].
    change (m + 1) with (Nat.add m 1) in IH.
    fold url kwargs ev.
    rewrite (IH m (S start)).
    + cbn [seq flat_map round]. unfold validator_wait at 2.
      now rewrite <- !app_assoc.
    + lia.
    + lia.
    + intros j Hj. rewrite (http_calls_after_round "GET" url kwargs).
      apply Hfail. lia.
    + rewrite (http_calls_after_round "GET" url kwargs). exact Hok.
Qed.

End ValidatorShape.

(** X8: when the first [k <= retries] attempts of the validator fail with
    a request exception and the next one is answered with a JSON object,
    the validator makes [k + 1] requests, sleeps 1, 2, ..., [2 ^ (k - 1)]
    seconds between them and returns the value stored under [dev_user]
    ([None] when the key is missing). *)
Theorem validate_token_recovers
    (config : APIConfig) (net : network) (api_key : string) (tr : trace)
    (k : nat) (d : gmap string pyval) :
  let url := base_url config +:+ DEV_USER_SELF_ENDPOINT in
  let kwargs : gmap string pyval :=
    {[ "headers" := PDict {[ "Authorization" := PStr api_key;
                             "Content-Type" := PStr "application/json" ]};
       "timeout" := PInt (timeout config) ]} in
  let ev := EvHttp "GET" url kwargs in
  k <= retries config ->
  (forall j, j < k ->
     failure_of (net (http_calls tr + j) "GET" url kwargs) <> None) ->
  success_of (net (http_calls tr + k) "GET" url kwargs) = Some (PDict d) ->
  exists tr',
    validate_token config net api_key tr
    = Some (Return (default PNone (d !! "dev_user")), tr ++ tr')
    /\ tr' = flat_map (round ev (fun attempt => 2 ^ Z.of_nat attempt)%Z)
               (seq 0 k) ++ [ev]
    /\ http_calls tr' = k + 1
    /\ sleeps tr' = map (fun attempt => 2 ^ Z.of_nat attempt)%Z (seq 0 k).
Proof.
  intros url kwargs ev Hk Hfail Hok. eexists.
  split; [|split; [reflexivity|split]].
  - unfold validate_token.
    apply (validate_loop_recovers config net api_key (retries config) d k
             (retries config) 0 tr); [reflexivity|exact Hk|exact Hfail|exact Hok].
  - rewrite http_calls_app. unfold ev.
    rewrite http_calls_rounds, length_seq. reflexivity.
  - rewrite sleeps_app. unfold ev. rewrite sleeps_rounds.
    cbn. now rewrite app_nil_r.
Qed.

Lemma validate_token_recovers_witness :
  exists tr',
    validate_token default_config
      (flaky 3 (Response 200 "{dev_user: {id: DEVU-1}}"
                  (Some (PDict {[ "dev_user" :=
                                    PDict {[ "id" := PStr "DEVU-1" ]} ]}))))
      "token" []
    = Some (Return (PDict {[ "id" := PStr "DEVU-1" ]}), tr')
    /\ http_calls tr' = 4
    /\ sleeps tr' = [1; 2; 4]%Z.
Proof.
  destruct (validate_token_recovers default_config
              (flaky 3 (Response 200 "{dev_user: {id: DEVU-1}}"
                          (Some (PDict {[ "dev_user" :=
                                            PDict {[ "id" := PStr "DEVU-1" ]} ]}))))
              "token" [] 3
              {[ "dev_user" := PDict {[ "id" := PStr "DEVU-1" ]} ]})
    as (tr' & Hrun & -> & Hcalls & Hsleeps).
  - vm_compute. lia.
  - intros j Hj. unfold flaky. cbn [http_calls List.filter length Nat.add].
    rewrite (proj2 (Nat.ltb_lt j 3) Hj). intros H. cbn in H. discriminate H.
  - reflexivity.
  - eexists. split; [|split; [exact Hcalls|exact Hsleeps]].
    rewrite Hrun. reflexivity.
Defined.

(** X9: whatever the network does, the validator produces an outcome
    after [n + 1 <= retries + 1] identical requests, having slept exactly
    1, 2, ..., [2 ^ (n - 1)] seconds (less than [2 ^ retries] seconds in
    total) and done nothing else; the outcome is never a request
    exception, since the loop catches every one of them. *)
Theorem validate_token_bounded
    (config : APIConfig) (net : network) (api_key : string) (tr : trace) :
  let url := base_url config +:+ DEV_USER_SELF_ENDPOINT in
  let kwargs : gmap string pyval :=
    {[ "headers" := PDict {[ "Authorization" := PStr api_key;
                             "Content-Type" := PStr "application/json" ]};
       "timeout" := PInt (timeout config) ]} in
  let ev := EvHttp "GET" url kwargs in
  exists o tr' n,
    validate_token config net api_key tr = Some (o, tr ++ tr')
    /\ (forall resp, o <> Raise (RequestException resp))
    /\ n <= retries config
    /\ http_calls tr' = n + 1
    /\ Forall (fun e => e = ev \/ exists seconds, e = EvSleep seconds) tr'
    /\ sleeps tr' = map (fun attempt => 2 ^ Z.of_nat attempt)%Z (seq 0 n)
    /\ (total_sleep tr' < 2 ^ Z.of_nat (retries config))%Z.
Proof.
  intros url kwargs ev. unfold validate_token.
  destruct (validate_loop_shape config net api_key (retries config)
              (retries config) 0 tr eq_refl)
    as (o & n & Hrun & Hn & Ho).
  fold url kwargs ev in Hrun.
  exists o, (flat_map (round ev validator_wait) (seq 0 n) ++ [ev]), n.
  assert (Hsleeps : sleeps (flat_map (round ev validator_wait) (seq 0 n) ++ [ev])
                    = map validator_wait (seq 0 n)).
  { rewrite sleeps_app. unfold ev at 1. rewrite sleeps_rounds.
    cbn. now rewrite app_nil_r. }
  split; [exact Hrun|]. split.
  { intros resp Hresp. destruct Ho as [[v ->] | ->]; discriminate Hresp. }
  split; [exact Hn|].
  split; [|split; [|split]].
  - rewrite http_calls_app. unfold ev at 1.
    rewrite http_calls_rounds, length_seq. reflexivity.
  - apply Forall_app. split.
    + apply Forall_flat_map, Forall_forall. intros i _.
      unfold round. constructor; [left; reflexivity|].
      constructor; [right; eexists; reflexivity|constructor].
    + constructor; [left; reflexivity|constructor].
  - exact Hsleeps.
  - unfold total_sleep. rewrite Hsleeps, sum_validator_wait.
    cbn [Nat.add]. change (2 ^ Z.of_nat 0)%Z with 1%Z.
    assert (2 ^ Z.of_nat n <= 2 ^ Z.of_nat (retries config))%Z
      by (apply Z.pow_le_mono_r; lia).
    lia.
Qed.

(** X10: a successful response to the validator whose body is valid JSON
    but not an object makes [validate_token] raise [AttributeError] after
    that request, instead of returning [None]. *)
Theorem validate_token_non_object
    (config : APIConfig) (net : network) (api_key : string) (tr : trace)
    (data : pyval) :
  let url := base_url config +:+ DEV_USER_SELF_ENDPOINT in
  let kwargs : gmap string pyval :=
    {[ "headers" := PDict {[ "Authorization" := PStr api_key;
                             "Content-Type" := PStr "application/json" ]};
       "timeout" := PInt (timeout config) ]} in
  success_of (net (http_calls tr) "GET" url kwargs) = Some data ->
  (forall d, data <> PDict d) ->
  validate_token config net api_key tr
  = Some (Raise AttributeError, tr ++ [EvHttp "GET" url kwargs]).
Proof.
  intros url kwargs Hok Hdata. unfold validate_token.
  rewrite Nat.add_1_r. cbn [seq validate_loop]. unfold mbind, M_bind at 1.
  destruct (validate_attempt_cases config net api_key tr)
    as [(e & He & _)|(data' & Hok' & [(d & -> & _)|(_ & ->)])].
  - fold url kwargs in He.
    destruct (net (http_calls tr) "GET" url kwargs) as [r|resp];
      cbn in He, Hok; [|discriminate].
    destruct (_ && _); [discriminate|].
    destruct (json r); discriminate.
  - fold url kwargs in Hok'. rewrite Hok in Hok'.
    injection Hok' as ->. now destruct (Hdata d).
  - reflexivity.
Qed.

Lemma validate_token_non_object_witness :
  exists tr',
    validate_token default_config (always array_body) "token" []
    = Some (Raise AttributeError, tr')
    /\ http_calls tr' = 1.
Proof.
  eexists. split.
  - apply (validate_token_non_object default_config (always array_body)
             "token" [] (PList [])).
    + reflexivity.
    + intros d H. discriminate H.
  - reflexivity.
Defined.

(** * Properties of list_works and list_parts *)

Lemma truthy_of_optional (float_truthy : string -> bool) (o : option string) :
  truthy float_truthy (of_optional o) = truthy_str o.
Proof. destruct o; reflexivity. Qed.

Lemma lookup_set_if (float_truthy : string -> bool) (key key' : string)
    (value : pyval) (params : gmap string pyval) :
  set_if float_truthy key' value params !! key
  = if decide (key = key')
    then if truthy float_truthy value then Some value else params !! key
    else params !! key.
Proof.
  unfold set_if. destruct (truthy float_truthy value).
  - case_decide as H; [subst; apply lookup_insert_eq|].
    now apply lookup_insert_ne.
  - now case_decide.
Qed.

(** The filters that [list_works] sends, key by key. *)
Lemma list_works_params_lookup (float_truthy : string -> bool)
    (work_type : option string) (owner : pyval) (limit : Z)
    (applies_to_part cursor : option string) (key : string) :
  list_works_params float_truthy work_type owner limit applies_to_part cursor
    !! key
  = if decide (key = "type")
    then if truthy_str work_type then PStr <$> work_type else None
    else if decide (key = "owned_by")
    then if truthy float_truthy owner then Some owner else None
    else if decide (key = "limit")
    then if (limit =? 0)%Z then None else Some (PInt limit)
    else if decide (key = "applies_to_part")
    then if truthy_str applies_to_part then PStr <$> applies_to_part else None
    else if decide (key = "cursor")
    then if truthy_str cursor then PStr <$> cursor else None
    else None.
Proof.
  unfold list_works_params. rewrite !lookup_set_if, !truthy_of_optional.
  cbn [truthy].
  repeat case_decide; subst; try discriminate;
    repeat match goal with
           | |- context [truthy_str ?o] => destruct o as [[|? ?]|]; cbn
           | |- context [(?z =? 0)%Z] => destruct (z =? 0)%Z; cbn
           | |- context [truthy ?f ?v] => destruct (truthy f v); cbn
           end;
    reflexivity.
Qed.

(** X11: [list_works] with an owner other than ["self"] never consults
    the cached identity: it issues the GET on the list endpoint whose
    parameters hold the owner as given, and hold [type], [applies_to_part]
    and [cursor] only when they are non-empty strings and [limit] only when
    it is not zero; nothing else is sent. *)
Theorem list_works_explicit_owner
    (API_BASE_URL : string) (net : network) (self : DevRevClient)
    (float_truthy : string -> bool)
    (work_type owned_by : option string) (limit : Z)
    (applies_to_part cursor : option string) :
  owned_by <> Some "self" ->
  exists params,
    list_works API_BASE_URL net self float_truthy work_type owned_by limit
      applies_to_part cursor
    = _make_request API_BASE_URL net self "GET" "/works.list"
        {[ "params" := PDict params ]}
    /\ params
       = list_works_params float_truthy work_type (of_optional owned_by)
           limit applies_to_part cursor
    /\ (forall key,
          params !! key
          = if decide (key = "type")
            then if truthy_str work_type then PStr <$> work_type else None
            else if decide (key = "owned_by")
            then if truthy_str owned_by then PStr <$> owned_by else None
            else if decide (key = "limit")
            then if (limit =? 0)%Z then None else Some (PInt limit)
            else if decide (key = "applies_to_part")
            then if truthy_str applies_to_part
                 then PStr <$> applies_to_part else None
            else if decide (key = "cursor")
            then if truthy_str cursor then PStr <$> cursor else None
            else None).
Proof.
  intros Hself. eexists. split; [|split; [reflexivity|]].
  - unfold list_works, resolve_owner.
    rewrite bool_decide_eq_false_2 by exact Hself. reflexivity.
  - intros key. rewrite list_works_params_lookup, truthy_of_optional.
    repeat case_decide; try reflexivity.
    destruct owned_by as [[|? ?]|]; reflexivity.
Qed.

Lemma list_works_explicit_owner_witness :
  exists params,
    list_works "https://api.devrev.ai" unreachable anonymous (fun _ => true)
      (Some "issue") (Some "DEVU-7") 0 None (Some "")
    = _make_request "https://api.devrev.ai" unreachable anonymous
        "GET" "/works.list" {[ "params" := PDict params ]}
    /\ params = {[ "type" := PStr "issue"; "owned_by" := PStr "DEVU-7" ]}.
Proof.
  destruct (list_works_explicit_owner "https://api.devrev.ai" unreachable
              anonymous (fun _ => true) (Some "issue") (Some "DEVU-7") 0
              None (Some ""))
    as (params & Hrun & -> & _).
  - discriminate.
  - eexists. split; [exact Hrun|]. reflexivity.
Defined.

(** X12: [list_works] with the owner ["self"] on a client that holds a
    cached identity sends that identity's [id] as the [owned_by] filter;
    when the identity has no [id], or an empty one, the filter is left out
    and the request lists works of every owner. *)
Theorem list_works_self
    (API_BASE_URL : string) (net : network) (self : DevRevClient)
    (float_truthy : string -> bool) (user : gmap string pyval)
    (work_type : option string) (limit : Z)
    (applies_to_part cursor : option string) :
  _current_user self = Some user ->
  exists params,
    list_works API_BASE_URL net self float_truthy work_type (Some "self")
      limit applies_to_part cursor
    = _make_request API_BASE_URL net self "GET" "/works.list"
        {[ "params" := PDict params ]}
    /\ params !! "owned_by"
       = match user !! "id" with
         | Some id => if truthy float_truthy id then Some id else None
         | None => None
         end.
Proof.
  intros Huser. eexists. split.
  - unfold list_works, resolve_owner.
    rewrite bool_decide_eq_true_2 by reflexivity. rewrite Huser. reflexivity.
  - rewrite list_works_params_lookup. cbn. unfold dict_get.
    destruct (user !! "id"); reflexivity.
Qed.

Lemma list_works_self_witness :
  exists params,
    list_works "https://api.devrev.ai" unreachable signed_in (fun _ => true)
      None (Some "self") 10 None None
    = _make_request "https://api.devrev.ai" unreachable signed_in
        "GET" "/works.list" {[ "params" := PDict params ]}
    /\ params !! "owned_by" = Some (PStr "DEVU-1").
Proof.
  destruct (list_works_self "https://api.devrev.ai" unreachable signed_in
              (fun _ => true) {[ "id" := PStr "DEVU-1" ]} None 10 None None
              eq_refl)
    as (params & Hrun & Hown).
  exists params. split; [exact Hrun|exact Hown].
Defined.

(** X13: [list_works] with the owner ["self"] on a client built without a
    cached identity raises [AttributeError] before any request is made. *)
Theorem list_works_self_without_identity
    (API_BASE_URL : string) (net : network) (self : DevRevClient)
    (float_truthy : string -> bool)
    (work_type : option string) (limit : Z)
    (applies_to_part cursor : option string) (tr : trace) :
  _current_user self = None ->
  list_works API_BASE_URL net self float_truthy work_type (Some "self")
    limit applies_to_part cursor tr
  = Some (Raise AttributeError, tr).
Proof.
  intros Huser. unfold list_works, resolve_owner.
  rewrite bool_decide_eq_true_2 by reflexivity. rewrite Huser. reflexivity.
Qed.

Lemma list_works_self_without_identity_witness :
  list_works "https://api.devrev.ai" unreachable anonymous (fun _ => true)
    None (Some "self") 10 None None []
  = Some (Raise AttributeError, []).
Proof.
  apply (list_works_self_without_identity "https://api.devrev.ai" unreachable
           anonymous (fun _ => true) None 10 None None []).
  reflexivity.
Defined.

(** X14: [list_parts] never rejects a part type: whatever [part_type] is,
    and whatever its lower-case form, it issues the GET on the parts list
    endpoint with [type] set to the part type exactly as given, with
    [cursor] and [parent_part.parts] only when they are non-empty, and with
    no other parameter. *)
Theorem list_parts_request
    (API_BASE_URL : string) (net : network) (self : DevRevClient)
    (lower : string -> string) (part_type : string)
    (cursor parent_part : option string) :
  let params := list_parts_params part_type cursor parent_part in
  list_parts API_BASE_URL net self lower part_type cursor parent_part
  = _make_request API_BASE_URL net self "GET" "/parts.list"
      {[ "params" := PDict params ]}
  /\ (forall key,
        params !! key
        = if decide (key = "type") then Some (PStr part_type)
          else if decide (key = "cursor")
          then if truthy_str cursor then PStr <$> cursor else None
          else if decide (key = "parent_part.parts")
          then if truthy_str parent_part then PStr <$> parent_part else None
          else None).
Proof.
  intros params. split.
  - unfold list_parts.
    destruct (negb (bool_decide (lower part_type ∈ valid_types)));
      reflexivity.
  - intros key. unfold params, list_parts_params, set_if_truthy.
    destruct cursor as [[|? ?]|], parent_part as [[|? ?]|]; cbn;
      repeat case_decide; subst; try discriminate; by simplify_map_eq.
Qed.

(** * Properties of the tool layer *)

Lemma produces_outcome_bind {A B : Type} (m : M A) (k : A -> M B) :
  produces_outcome m ->
  (forall a, produces_outcome (k a)) ->
  produces_outcome (mbind k m).
Proof.
  intros Hm Hk tr. unfold mbind, M_bind.
  destruct (Hm tr) as (o & tr1 & ->).
  destruct o as [a|e]; [apply Hk|eauto].
Qed.

Lemma produces_outcome_ret {A : Type} (a : A) : produces_outcome (mret a).
Proof. intros tr. eexists _, _. reflexivity. Qed.

Lemma produces_outcome_raise {A : Type} (e : exn) :
  produces_outcome (raise e : M A).
Proof. intros tr. eexists _, _. reflexivity. Qed.

Lemma produces_outcome_py_len (v : pyval) : produces_outcome (py_len v).
Proof. intros tr. destruct v; eexists _, _; reflexivity. Qed.

Lemma produces_outcome_py_get (data : pyval) (key : string) (dflt : pyval) :
  produces_outcome (py_get data key dflt).
Proof. intros tr. destruct data; eexists _, _; reflexivity. Qed.

Lemma produces_outcome_make_request
    (API_BASE_URL : string) (net : network) (self : DevRevClient)
    (method endpoint : string) (kwargs : gmap string pyval) :
  method = "GET" \/ method = "POST" ->
  produces_outcome
    (_make_request API_BASE_URL net self method endpoint kwargs).
Proof.
  intros Hmethod tr.
  destruct (make_request_total API_BASE_URL net self method endpoint kwargs
              tr Hmethod) as (o & tr' & H).
  eauto.
Qed.

Section ClientOutcomes.
Variable API_BASE_URL : string.
Variable net : network.
Variable self : DevRevClient.

Lemma search_produces_outcome (query namespace : string) :
  produces_outcome (search API_BASE_URL net self query namespace).
Proof. apply produces_outcome_make_request. now left. Qed.

Lemma list_works_produces_outcome (float_truthy : string -> bool)
    (work_type owned_by : option string) (limit : Z)
    (applies_to_part cursor : option string) :
  produces_outcome
    (list_works API_BASE_URL net self float_truthy work_type owned_by limit
       applies_to_part cursor).
Proof.
  unfold list_works. apply produces_outcome_bind.
  - unfold resolve_owner.
    destruct (bool_decide (owned_by = Some "self"));
      [|apply produces_outcome_ret].
    destruct (_current_user self);
      [apply produces_outcome_ret|apply produces_outcome_raise].
  - intros owner. apply produces_outcome_make_request. now left.
Qed.

Lemma get_object_produces_outcome (object_id : string) :
  produces_outcome (get_object API_BASE_URL net self object_id).
Proof.
  unfold get_object.
  repeat (destruct (String.eqb (_determine_object_type object_id) _);
          [apply produces_outcome_make_request; now left|]).
  apply produces_outcome_raise.
Qed.

Lemma create_work_produces_outcome (work_type title : string)
    (applies_to_part body : option string) :
  produces_outcome
    (create_work API_BASE_URL net self work_type title applies_to_part body).
Proof.
  unfold create_work.
  destruct (negb (bool_decide (work_type ∈ ["issue"; "task"])));
    [apply produces_outcome_raise|].
  destruct (String.eqb work_type "issue" && negb (truthy_str applies_to_part));
    [apply produces_outcome_raise|].
  apply produces_outcome_make_request. now right.
Qed.

Lemma get_part_produces_outcome (part_id : string) :
  produces_outcome (get_part API_BASE_URL net self part_id).
Proof. apply produces_outcome_make_request. now left. Qed.

Lemma list_parts_produces_outcome (lower : string -> string)
    (part_type : string) (cursor parent_part : option string) :
  produces_outcome
    (list_parts API_BASE_URL net self lower part_type cursor parent_part).
Proof.
  unfold list_parts. apply produces_outcome_bind.
  - destruct (negb (bool_decide (lower part_type ∈ valid_types)));
      apply produces_outcome_ret.
  - intros _. apply produces_outcome_make_request. now left.
Qed.

Lemma update_work_produces_outcome (work_id : string)
    (title applies_to_part body stage status : option string) :
  produces_outcome
    (update_work API_BASE_URL net self work_id title applies_to_part body
       stage status).
Proof. apply produces_outcome_make_request. now right. Qed.

End ClientOutcomes.

Lemma reraise_returns_or_value_error (str_exn : exn -> string)
    (context : string) (m : M pyval) :
  produces_outcome m ->
  returns_or_value_error (Main.reraise str_exn context m).
Proof.
  intros Hm tr. unfold Main.reraise.
  destruct (Hm tr) as (o & tr1 & ->).
  destruct o as [v|e]; [eauto 6|].
  destruct e; eexists _, _; (split; [reflexivity|right; eauto]).
Qed.

Lemma with_client_returns_or_value_error (str_exn : exn -> string)
    (client : option DevRevClient) (context : string)
    (body : DevRevClient -> M pyval) :
  (forall c, produces_outcome (body c)) ->
  returns_or_value_error
    (Main.with_client client (fun c => Main.reraise str_exn context (body c))).
Proof.
  intros Hbody. unfold Main.with_client. destruct client as [c|].
  - apply reraise_returns_or_value_error, Hbody.
  - intros tr. eexists _, _. split; [reflexivity|right; eauto].
Qed.

(** X15: whatever the client, the network, the arguments and the trace so
    far, each of the seven tools produces an outcome, and that outcome is a
    value or a [ValueError]: no [DevRevAPIError], request exception or
    other exception of the client reaches the caller of a tool. *)
Theorem tools_return_or_raise_value_error
    (config : APIConfig) (net : network) (float_truthy : string -> bool)
    (lower : string -> string) (str_exn : exn -> string)
    (client : option DevRevClient) :
  (forall query namespace,
     returns_or_value_error
       (Main.search config net str_exn client query namespace))
  /\ (forall work_type owned_by limit applies_to_part cursor,
        returns_or_value_error
          (Main.list_works config net float_truthy str_exn client work_type
             owned_by limit applies_to_part cursor))
  /\ (forall id,
        returns_or_value_error (Main.get_object config net str_exn client id))
  /\ (forall work_type title applies_to_part body,
        returns_or_value_error
          (Main.create_work config net str_exn client work_type title
             applies_to_part body))
  /\ (forall id,
        returns_or_value_error (Main.get_part config net str_exn client id))
  /\ (forall part_type cursor parent_part,
        returns_or_value_error
          (Main.list_parts config net lower str_exn client part_type cursor
             parent_part))
  /\ (forall work_id title applies_to_part body stage status,
        returns_or_value_error
          (Main.update_work config net str_exn client work_id title
             applies_to_part body stage status)).
Proof.
  repeat split; intros; apply with_client_returns_or_value_error; intros c.
  - apply produces_outcome_bind; [apply search_produces_outcome|].
    intros results. apply produces_outcome_bind;
      [apply produces_outcome_py_len|intros _; apply produces_outcome_ret].
  - apply produces_outcome_bind; [apply list_works_produces_outcome|].
    intros works. apply produces_outcome_bind;
      [apply produces_outcome_py_len|intros _; apply produces_outcome_ret].
  - apply produces_outcome_bind; [apply get_object_produces_outcome|].
    intros object_details. apply produces_outcome_ret.
  - apply produces_outcome_bind; [apply create_work_produces_outcome|].
    intros work. apply produces_outcome_bind;
      [apply produces_outcome_py_get|intros _; apply produces_outcome_ret].
  - apply produces_outcome_bind; [apply get_part_produces_outcome|].
    intros part_details. apply produces_outcome_ret.
  - apply produces_outcome_bind; [apply list_parts_produces_outcome|].
    intros parts. apply produces_outcome_bind;
      [apply produces_outcome_py_len|intros _; apply produces_outcome_ret].
  - apply produces_outcome_bind; [apply update_work_produces_outcome|].
    intros work. apply produces_outcome_ret.
Qed.

(** X16: the search tool, on a successful first response whose body is an
    object: when the [results] entry is a list (or missing, which counts as
    the empty list) the tool returns it under the key [results]; when the
    entry is [null], a boolean or a number, the tool raises [ValueError]
    for the [TypeError] of [len], although the request succeeded. *)
Theorem search_tool_result
    (config : APIConfig) (net : network) (str_exn : exn -> string)
    (c : DevRevClient) (query namespace : string) (tr : trace)
    (d : gmap string pyval) :
  let url := base_url config +:+ "/search.core" in
  let kwargs :=
    request_kwargs c {[ "params" := PDict (search_params query namespace) ]} in
  success_of (net (http_calls tr) "GET" url kwargs) = Some (PDict d) ->
  Main.search config net str_exn (Some c) query namespace tr
  = Some (match default (PList []) (d !! "results") with
          | (PList _ | PStr _ | PDict _) as results =>
              Return (PDict {[ "results" := results ]})
          | _ =>
              Raise (ValueError ("Error searching DevRev: "
                                 +:+ str_exn TypeError))
          end,
          tr ++ [EvHttp "GET" url kwargs]).
Proof.
  intros url kwargs Hok.
  unfold Main.search, Main.with_client, Main.reraise, search.
  unfold mbind, M_bind at 1.
  rewrite (make_request_first_answer (base_url config) net c "GET"
             SEARCH_ENDPOINT _ tr (PDict d) (or_introl eq_refl) Hok).
  unfold unwrap, py_get, SEARCH_ENDPOINT.
  cbn [String.eqb Ascii.eqb Bool.eqb].
  destruct (default (PList []) (d !! "results")); reflexivity.
Qed.

Lemma search_tool_result_witness :
  exists tr',
    Main.search default_config (always null_results) (fun _ => "TypeError")
      (Some anonymous) "login" "issue" []
    = Some (Raise (ValueError "Error searching DevRev: TypeError"), tr')
    /\ http_calls tr' = 1.
Proof.
  eexists. split.
  - etransitivity.
    + apply (search_tool_result default_config (always null_results)
               (fun _ => "TypeError") anonymous "login" "issue" []
               {[ "results" := PNone ]}).
      reflexivity.
    + reflexivity.
  - reflexivity.
Defined.



(** X18: the create_work tool refuses without any request, and always
    with a [ValueError]: with the fixed text when no client is set, and
    with the text of the client's own [ValueError] behind the prefix
    "Error creating work: " when the work type is neither [issue] nor
    [task] or when an issue comes without a part. *)
Theorem create_work_tool_rejections
    (config : APIConfig) (net : network) (str_exn : exn -> string)
    (c : DevRevClient) (work_type title : string)
    (applies_to_part body : option string) (tr : trace) :
  Main.create_work config net str_exn None work_type title applies_to_part
    body tr
  = Some (Raise (ValueError "DevRev client not initialized"), tr)
  /\ (work_type <> "issue" -> work_type <> "task" ->
      Main.create_work config net str_exn (Some c) work_type title
        applies_to_part body tr
      = Some (Raise (ValueError
                       ("Error creating work: "
                        +:+ str_exn (ValueError
                                       ("Unsupported work type: " +:+ work_type
                                        +:+ ". Must be 'issue' or 'task'")))),
              tr))
  /\ (work_type = "issue" ->
      applies_to_part = None \/ applies_to_part = Some "" ->
      Main.create_work config net str_exn (Some c) work_type title
        applies_to_part body tr
      = Some (Raise (ValueError
                       ("Error creating work: "
                        +:+ str_exn (ValueError
                                       "applies_to_part is required for issues"))),
              tr)).
Proof.
  split; [reflexivity|]. split.
  - intros Hi Ht.
    unfold Main.create_work, Main.with_client, Main.reraise, create_work.
    unfold mbind, M_bind.
    rewrite bool_decide_eq_false_2; [reflexivity|].
    intros Hin. apply elem_of_cons in Hin as [->|Hin]; [done|].
    apply elem_of_cons in Hin as [->|Hin]; [done|].
    by apply elem_of_nil in Hin.
  - intros -> Hpart.
    unfold Main.create_work, Main.with_client, Main.reraise, create_work.
    unfold mbind, M_bind.
    rewrite bool_decide_eq_true_2 by apply list_elem_of_here.
    destruct Hpart as [-> | ->]; reflexivity.
Qed.

Lemma create_work_tool_rejections_witness :
  Main.create_work default_config unreachable (fun _ => "unsupported")
    (Some signed_in) "ticket" "Fix login" (Some "PROD-1") None []
  = Some (Raise (ValueError "Error creating work: unsupported"), [])
  /\ Main.create_work default_config unreachable (fun _ => "part required")
       (Some signed_in) "issue" "Fix login" None None []
     = Some (Raise (ValueError "Error creating work: part required"), []).
Proof.
  split.
  - apply (proj1 (proj2 (create_work_tool_rejections default_config
                           unreachable (fun _ => "unsupported") signed_in
                           "ticket" "Fix login" (Some "PROD-1") None [])));
      discriminate.
  - apply (proj2 (proj2 (create_work_tool_rejections default_config
                           unreachable (fun _ => "part required") signed_in
                           "issue" "Fix login" None None [])));
      [reflexivity|left; reflexivity].
Defined.

(** * Properties of on_connect *)

(** X19: when [on_connect] sets the client, the API key is a non-empty
    string, the validator returned a non-empty identity object for it, and
    the client caches exactly that identity; every work it then creates is
    owned by the single-element list holding the identity's [id]. *)
Theorem on_connect_client_identity
    (config : APIConfig) (net : network) (float_truthy : string -> bool)
    (api_key : option string) (tr tr' : trace) (c : DevRevClient) :
  Main.on_connect config net float_truthy api_key tr
  = Some (Return (Main.Connected c), tr') ->
  exists key d,
    api_key = Some key /\ key <> "" /\ d <> ∅
    /\ validate_token config net key tr = Some (Return (PDict d), tr')
    /\ c = new_client config key (Some d)
    /\ (forall work_type title applies_to_part body,
          create_payload c work_type title applies_to_part body !! "owned_by"
          = Some (PList [default PNone (d !! "id")])).
Proof.
  intros H. unfold Main.on_connect in H.
  destruct api_key as [key|].
  2:{ cbv [truthy_str negb mret M_ret] in H. now inversion H. }
  cbv [truthy_str negb mret M_ret] in H.
  destruct (String.eqb key "") eqn:Hkey; [now inversion H|].
  unfold mbind, M_bind in H.
  change (default "" (Some key)) with key in H.
  destruct (validate_token config net key tr) as [[[v|e] tr1]|] eqn:Hv;
    cbv beta iota in H; [| now inversion H | now inversion H].
  destruct (truthy float_truthy v) eqn:Htruthy;
    cbv beta iota in H; [|now inversion H].
  destruct v as [| | | | | |d]; cbv [py_get raise] in H;
    try now inversion H.
  injection H as <- <-.
  exists key, d. split; [reflexivity|].
  split; [now apply String.eqb_neq|].
  assert (Hd : d <> ∅).
  { cbn in Htruthy. apply negb_true_iff, bool_decide_eq_false in Htruthy.
    exact Htruthy. }
  split; [exact Hd|]. split; [exact Hv|]. split; [reflexivity|].
  intros work_type title applies_to_part body.
  rewrite create_payload_owned_by. unfold default_owner. cbn.
  rewrite bool_decide_eq_false_2 by exact Hd. reflexivity.
Qed.

Lemma on_connect_client_identity_witness :
  exists key d,
    Some "token" = Some key /\ key <> "" /\ d <> ∅
    /\ new_client default_config "token" (Some {[ "id" := PStr "DEVU-1" ]})
       = new_client default_config key (Some d).
Proof.
  destruct (on_connect_client_identity default_config whoami (fun _ => true)
              (Some "token") []
              [EvHttp "GET" "https://api.devrev.ai/dev-users.self"
                 {[ "headers" :=
                      PDict {[ "Authorization" := PStr "token";
                               "Content-Type" := PStr "application/json" ]};
                    "timeout" := PInt 30 ]}]
              (new_client default_config "token"
                 (Some {[ "id" := PStr "DEVU-1" ]})))
    as (key & d & Hkey & Hne & Hd & _ & Hc & _).
  - reflexivity.
  - exists key, d. split; [exact Hkey|]. split; [exact Hne|].
    split; [exact Hd|exact Hc].
Defined.

(** X20: [on_connect] ends in [sys.exit(1)] without setting a client:
    before any request when the API key is missing or empty; after
    [retries + 1] requests when every attempt of the validator fails; and
    after one request when a successful response has no [dev_user] entry or
    an empty one. *)
Theorem on_connect_exits
    (config : APIConfig) (net : network) (float_truthy : string -> bool)
    (key : string) (tr : trace) :
  let url := base_url config +:+ DEV_USER_SELF_ENDPOINT in
  let kwargs : gmap string pyval :=
    {[ "headers" := PDict {[ "Authorization" := PStr key;
                             "Content-Type" := PStr "application/json" ]};
       "timeout" := PInt (timeout config) ]} in
  Main.on_connect config net float_truthy None tr
  = Some (Return (Main.SysExit 1), tr)
  /\ Main.on_connect config net float_truthy (Some "") tr
     = Some (Return (Main.SysExit 1), tr)
  /\ (key <> "" ->
      (forall j, j <= retries config ->
         failure_of (net (http_calls tr + j) "GET" url kwargs) <> None) ->
      exists tr',
        Main.on_connect config net float_truthy (Some key) tr
        = Some (Return (Main.SysExit 1), tr ++ tr')
        /\ http_calls tr' = retries config + 1)
  /\ (key <> "" ->
      forall d,
        success_of (net (http_calls tr) "GET" url kwargs) = Some (PDict d) ->
        d !! "dev_user" = None \/ d !! "dev_user" = Some (PDict ∅) ->
        Main.on_connect config net float_truthy (Some key) tr
        = Some (Return (Main.SysExit 1), tr ++ [EvHttp "GET" url kwargs])).
Proof.
  intros url kwargs. split; [reflexivity|]. split; [reflexivity|]. split.
  - intros Hkey Hnet. apply String.eqb_neq in Hkey.
    pose proof (validate_loop_all_fail config net key (retries config)
                  (retries config) 0 tr eq_refl Hnet) as Hv.
    change (validate_loop config net key (retries config)
              (seq 0 (retries config + 1)) tr)
      with (validate_token config net key tr) in Hv.
    unfold Main.on_connect. cbv [truthy_str negb].
    rewrite Hkey. change (default "" (Some key)) with key.
    unfold mbind, M_bind at 1. rewrite Hv.
    eexists. split; [reflexivity|].
    rewrite http_calls_app, http_calls_rounds, length_seq. reflexivity.
  - intros Hkey d Hok Hmissing. apply String.eqb_neq in Hkey.
    unfold Main.on_connect. cbv [truthy_str negb].
    rewrite Hkey. change (default "" (Some key)) with key.
    unfold mbind, M_bind at 1.
    rewrite (validate_token_first_success config net key tr d Hok).
    unfold dict_get. destruct Hmissing as [-> | ->]; reflexivity.
Qed.

Lemma on_connect_exits_witness :
  (exists tr',
     Main.on_connect default_config unreachable (fun _ => true)
       (Some "token") []
     = Some (Return (Main.SysExit 1), tr')
     /\ http_calls tr' = 4)
  /\ exists tr',
       Main.on_connect default_config empty_object (fun _ => true)
         (Some "token") []
       = Some (Return (Main.SysExit 1), tr').
Proof.
  split.
  - destruct (proj1 (proj2 (proj2
                (on_connect_exits default_config unreachable (fun _ => true)
                   "token" []))))
      as (tr' & Hrun & Hcalls).
    + discriminate.
    + intros j _. discriminate.
    + exists tr'. split; [exact Hrun|exact Hcalls].
  - eexists.
    apply (proj2 (proj2 (proj2
             (on_connect_exits default_config empty_object (fun _ => true)
                "token" []))) ltac:(discriminate) ∅ eq_refl).
    left. reflexivity.
Defined.

(** * Further properties of the classifier and of the payloads *)

Lemma message_of_json_cases (error_data : pyval) :
  (exists message, message_of_json error_data = inr message)
  \/ message_of_json error_data = inl TypeError.
Proof.
  destruct error_data as [| | | | s|l|d]; try (right; reflexivity).
  - unfold message_of_json, py_in, py_getitem.
    destruct (str_contains "message" s); [right; reflexivity|].
    destruct (str_contains "error" s); [right; reflexivity|].
    left. eexists. reflexivity.
  - unfold message_of_json, py_in, py_getitem.
    destruct (existsb (is_str "message") l); [right; reflexivity|].
    destruct (existsb (is_str "error") l); [right; reflexivity|].
    left. eexists. reflexivity.
  - rewrite message_of_json_object. left. eexists. reflexivity.
Qed.

(** X21: the classifier makes no request and never sleeps; without a
    response it returns the pair (message, 503); with a response it never
    returns to its caller, and every [DevRevAPIError] it raises carries the
    status and the text of that response. *)
Theorem handle_api_error_outcomes (error : option response) (tr : trace) :
  exists o,
    handle_api_error error tr = Some (o, tr)
    /\ match error with
       | None => o = Return (network_message, 503%Z)
       | Some resp =>
           (forall pair, o <> Return pair)
           /\ (forall message status body,
                 o = Raise (DevRevAPIError message status body) ->
                 status = status_code resp /\ body = text resp)
       end.
Proof.
  unfold handle_api_error. destruct error as [resp|].
  - destruct (json resp) as [error_data|].
    + destruct (message_of_json_cases error_data) as [[message ->] | ->];
        eexists; (split; [reflexivity|]); split;
        try (intros pair H; discriminate H);
        intros m s b H; [injection H as _ <- <-; done|discriminate H].
    + eexists. split; [reflexivity|]. split.
      * intros pair H. discriminate H.
      * intros m s b H. injection H as _ <- <-. done.
  - eexists. split; reflexivity.
Qed.

Lemma lookup_set_if_truthy_eq (key key' : string) (value : option string)
    (payload : gmap string pyval) :
  set_if_truthy key' value payload !! key
  = if decide (key = key')
    then if truthy_str value then PStr <$> value else payload !! key
    else payload !! key.
Proof.
  unfold set_if_truthy. destruct value as [[|a v]|]; cbn.
  - now case_decide.
  - case_decide as H; [subst; apply lookup_insert_eq|].
    now apply lookup_insert_ne.
  - now case_decide.
Qed.

(** X22: the payload that [create_work] posts maps [type] and [title] to
    the arguments, [owned_by] to the owner list, [applies_to_part] and
    [body] to the arguments when these are non-empty strings, and has no
    other key: an empty part reference or body is left out, not sent as an
    empty string. *)
Theorem create_payload_lookup
    (self : DevRevClient) (work_type title : string)
    (applies_to_part body : option string) (key : string) :
  create_payload self work_type title applies_to_part body !! key
  = if decide (key = "type") then Some (PStr work_type)
    else if decide (key = "title") then Some (PStr title)
    else if decide (key = "owned_by") then Some (PList (default_owner self))
    else if decide (key = "applies_to_part")
    then if truthy_str applies_to_part then PStr <$> applies_to_part else None
    else if decide (key = "body")
    then if truthy_str body then PStr <$> body else None
    else None.
Proof.
  unfold create_payload. rewrite !lookup_set_if_truthy_eq.
  repeat case_decide; subst; try discriminate;
    repeat match goal with
           | |- context [truthy_str ?o] => destruct (truthy_str o)
           end;
    by simplify_map_eq.
Qed.



(** * Persistent HTTP errors *)

Section PersistentError.
Variable net : network.
Variable self : DevRevClient.
Variables method url endpoint : string.
Variable kwargs : gmap string pyval.
Hypothesis Hmethod : method = "GET" \/ method = "POST".
Variable r : response.
Variable e : exn.
Hypothesis Hclassified :
  forall tr, handle_api_error (Some r) tr = Some (Raise e, tr).

Let ev : event := EvHttp method url kwargs.

(** Every attempt fails with the response [r] attached: the loop ends
    with what the classifier raises for [r]. *)
Lemma retry_loop_raises_classified :
  forall k retries fuel tr,
    retries + k = max_retries self ->
    k + 1 <= fuel ->
    (forall j, j <= k ->
       failure_of (net (http_calls tr + j) method url kwargs)
       = Some (Some r)) ->
    retry_loop net self fuel method url endpoint kwargs retries tr
    = Some (Raise e,
            tr ++ flat_map (round ev client_wait) (seq retries k) ++ [ev]).
Proof.
  induction k as [|k IH]; intros retries fuel tr Hk Hfuel Hnet.
  - destruct fuel as [|fuel]; [lia|]. cbn [retry_loop].
    replace (retries <=? max_retries self)%nat with true
      by (symmetry; apply Nat.leb_le; lia).
    unfold mbind, M_bind at 1.
    pose proof (Hnet 0 (Nat.le_refl 0)) as Hr. rewrite Nat.add_0_r in Hr.
    rewrite (attempt_request_fails net method url endpoint kwargs Hmethod
               tr (Some r) Hr).
    replace (max_retries self <=? retries)%nat with true
      by (symmetry; apply Nat.leb_le; lia).
    cbv [mbind M_bind]. rewrite Hclassified. reflexivity.
  - destruct fuel as [|fuel]; [lia|]. cbn [retry_loop].
    replace (retries <=? max_retries self)%nat with true
      by (symmetry; apply Nat.leb_le; lia).
    unfold mbind, M_bind at 1.
    pose proof (Hnet 0 (Nat.le_0_l _)) as Hr. rewrite Nat.add_0_r in Hr.
    rewrite (attempt_request_fails net method url endpoint kwargs Hmethod
               tr (Some r) Hr).
    replace (max_retries self <=? retries)%nat with false
      by (symmetry; apply Nat.leb_gt; lia).
    cbv [mbind M_bind mret M_ret sleep]. fold ev.
    rewrite IH.
    + replace (seq (retries + 1) k) with (seq (S retries) k)
        by (f_equal; lia).
      cbn [seq flat_map]. rewrite <- !app_assoc. reflexivity.
    + lia.
    + lia.
    + intros j Hj. rewrite (http_calls_after_round method url kwargs).
      apply Hnet. lia.
Qed.

End PersistentError.

(** X24: an HTTP error status is retried like a network failure.  When
    each of the [max_retries + 1] attempts is answered with the same 4xx or
    5xx response, whose body is a JSON object or not JSON at all, the
    executor sleeps 2, 4, ..., [2 ^ max_retries] seconds between the
    attempts and then raises the [DevRevAPIError] for that response, with
    its status, its text and the message chosen by the classifier. *)
Theorem make_request_persistent_http_error
    (API_BASE_URL : string) (net : network) (self : DevRevClient)
    (method endpoint : string) (kwargs : gmap string pyval) (tr : trace)
    (r : response) :
  let url := API_BASE_URL +:+ endpoint in
  let ev := EvHttp method url (request_kwargs self kwargs) in
  method = "GET" \/ method = "POST" ->
  (400 <= status_code r < 600)%Z ->
  (json r = None \/ exists d, json r = Some (PDict d)) ->
  (forall j, j <= max_retries self ->
     net (http_calls tr + j) method url (request_kwargs self kwargs)
     = Answer r) ->
  exists tr',
    _make_request API_BASE_URL net self method endpoint kwargs tr
    = Some (Raise (DevRevAPIError
                     match json r with
                     | Some (PDict d) =>
                         match d !! "message", d !! "error" with
                         | Some message, _ => message
                         | None, Some message => message
                         | None, None => PStr default_message
                         end
                     | _ => PStr (message_of_status (status_code r))
                     end
                     (status_code r) (text r)),
            tr ++ tr')
    /\ http_calls tr' = max_retries self + 1
    /\ sleeps tr' = map (fun i => 2 ^ Z.of_nat (i + 1))%Z
                      (seq 0 (max_retries self)).
Proof.
  intros url ev Hmethod Hstatus Hjson Hnet. eexists.
  split; [|split].
  - unfold _make_request.
    apply (retry_loop_raises_classified net self method url endpoint
             (request_kwargs self kwargs) Hmethod r _
             (fun tr0 => handle_api_error_structured r tr0 Hjson)
             (max_retries self) 0 (max_retries self + 2) tr); [lia|lia|].
    intros j Hj. rewrite (Hnet j Hj). cbn [failure_of].
    replace ((400 <=? status_code r)%Z && (status_code r <? 600)%Z)
      with true; [reflexivity|].
    symmetry. apply andb_true_iff. split; [apply Z.leb_le|apply Z.ltb_lt]; lia.
  - rewrite http_calls_app. unfold ev.
    rewrite http_calls_rounds, length_seq. reflexivity.
  - rewrite sleeps_app. unfold ev. rewrite sleeps_rounds.
    cbn. now rewrite app_nil_r.
Qed.

Lemma make_request_persistent_http_error_witness :
  exists tr',
    _make_request "https://api.devrev.ai"
      (always (Response 404 "Not Found" None)) anonymous
      "GET" "/works.list" ∅ []
    = Some (Raise (DevRevAPIError
                     (PStr "The requested resource was not found.")
                     404 "Not Found"), tr')
    /\ http_calls tr' = 4
    /\ sleeps tr' = [2; 4; 8]%Z.
Proof.
  destruct (make_request_persistent_http_error "https://api.devrev.ai"
              (always (Response 404 "Not Found" None)) anonymous
              "GET" "/works.list" ∅ [] (Response 404 "Not Found" None))
    as (tr' & Hrun & Hcalls & Hsleeps).
  - left; reflexivity.
  - cbn. lia.
  - left; reflexivity.
  - intros j _. reflexivity.
  - exists tr'. split; [exact Hrun|]. split; [exact Hcalls|exact Hsleeps].
Defined.
